(** * opsreview: [pull_alerts.py]

    A shallow embedding of the on-call report script and the properties of
    its window computation, incident normalisation, classification,
    grouping and rendering.

    Layout: Python values the script relies on (strings, [datetime],
    [relativedelta]), the script's effects (standard output, the logger, the
    clock, exceptions), the script's functions, the vocabulary of the
    statements, and then the lemmas.

    The calls of the incident-management client are taken to return; what
    they return is a parameter ([Collaborators]).  [pretty_output] and
    [formatted_created_at], which nothing in the script calls, are left
    out. *)

From Stdlib Require Import ZArith List String Ascii Bool Lia Permutation.
Import ListNotations.
Local Open Scope string_scope.
Local Open Scope Z_scope.

(* ===================================================================== *)
(** ** Python strings *)
(* ===================================================================== *)

Module PyStr.

(** [sub in s] for [str]: some position of [s] starts with [sub]. *)
Fixpoint contains (sub s : string) : bool :=
  String.prefix sub s ||
  match s with
  | EmptyString => false
  | String _ s' => contains sub s'
  end.

Definition nl : string := String (ascii_of_nat 10) EmptyString.

Definition digit (d : Z) : ascii := ascii_of_nat (48 + Z.to_nat d).

(** Decimal digits of a non-negative integer, most significant first;
    [fuel] bounds the number of digits. *)
Fixpoint digits (fuel : nat) (n : Z) (acc : string) : string :=
  match fuel with
  | O => acc
  | S fuel' =>
      let acc' := String (digit (n mod 10)) acc in
      if n <? 10 then acc' else digits fuel' (n / 10) acc'
  end.

(** [str(n)] for an [int]. *)
Definition str_int (n : Z) : string :=
  if n <? 0
  then String "-" (digits (S (Z.to_nat (Z.log2 (- n)))) (- n) EmptyString)
  else digits (S (Z.to_nat (Z.log2 n))) n EmptyString.

Fixpoint spaces (k : nat) : string :=
  match k with
  | O => EmptyString
  | S k' => String " " (spaces k')
  end.

(** [s.rjust(width)]: pad with blanks on the left, never truncate. *)
Definition rjust (width : nat) (s : string) : string :=
  spaces (width - String.length s) ++ s.

(** ['{:w}'.format(n)] for an [int]: numbers are right-aligned. *)
Definition format_int_width (width : nat) (n : Z) : string :=
  rjust width (str_int n).

(** ['%02d' % n], the shape of [%m], [%d], [%H] and [%M] in [strftime]. *)
Definition two_digits (n : Z) : string :=
  if n <? 10 then String "0" (str_int n) else str_int n.

End PyStr.

(* ===================================================================== *)
(** ** [datetime]: the proleptic Gregorian calendar of the standard library *)
(* ===================================================================== *)

Module PyDatetime.

(** An aware [datetime] with its wall-clock fields.  Arithmetic on an
    aware [datetime] is carried out on these fields; [tzinfo] is kept
    unchanged and takes no part in it. *)
Record datetime : Type := mkDatetime {
  year : Z;
  month : Z;
  day : Z;
  hour : Z;
  minute : Z;
  second : Z;
  microsecond : Z
}.

Definition MINYEAR : Z := 1.
Definition MAXYEAR : Z := 9999.
Definition MAXORDINAL : Z := 3652059.

(** [_DAYS_IN_MONTH[month]] *)
Definition DAYS_IN_MONTH (m : Z) : Z :=
  match m with
  | 1 => 31 | 2 => 28 | 3 => 31 | 4 => 30 | 5 => 31 | 6 => 30
  | 7 => 31 | 8 => 31 | 9 => 30 | 10 => 31 | 11 => 30 | 12 => 31
  | _ => -1
  end.

(** [_DAYS_BEFORE_MONTH[month]] *)
Definition DAYS_BEFORE_MONTH (m : Z) : Z :=
  match m with
  | 1 => 0 | 2 => 31 | 3 => 59 | 4 => 90 | 5 => 120 | 6 => 151
  | 7 => 181 | 8 => 212 | 9 => 243 | 10 => 273 | 11 => 304 | 12 => 334
  | _ => -1
  end.

Definition is_leap (y : Z) : bool :=
  (y mod 4 =? 0) && (negb (y mod 100 =? 0) || (y mod 400 =? 0)).

Definition days_before_year (y : Z) : Z :=
  let y' := y - 1 in
  y' * 365 + y' / 4 - y' / 100 + y' / 400.

Definition days_in_month (y m : Z) : Z :=
  if (m =? 2) && is_leap y then 29 else DAYS_IN_MONTH m.

Definition days_before_month (y m : Z) : Z :=
  DAYS_BEFORE_MONTH m + (if (2 <? m) && is_leap y then 1 else 0).

Definition ymd2ord (y m d : Z) : Z :=
  days_before_year y + days_before_month y m + d.

Definition DI400Y : Z := 146097.
Definition DI100Y : Z := 36524.
Definition DI4Y : Z := 1461.

Definition ord2ymd (n : Z) : Z * Z * Z :=
  let n := n - 1 in
  let n400 := n / DI400Y in
  let n := n mod DI400Y in
  let year := n400 * 400 + 1 in
  let n100 := n / DI100Y in
  let n := n mod DI100Y in
  let n4 := n / DI4Y in
  let n := n mod DI4Y in
  let n1 := n / 365 in
  let n := n mod 365 in
  let year := year + (n100 * 100 + n4 * 4 + n1) in
  if (n1 =? 4) || (n100 =? 4) then (year - 1, 12, 31)
  else
    let leapyear := (n1 =? 3) && (negb (n4 =? 24) || (n100 =? 3)) in
    let month := Z.shiftr (n + 50) 5 in
    let preceding :=
      DAYS_BEFORE_MONTH month + (if (2 <? month) && leapyear then 1 else 0) in
    if n <? preceding then
      let month := month - 1 in
      let preceding :=
        preceding
        - (DAYS_IN_MONTH month + (if (month =? 2) && leapyear then 1 else 0)) in
      (year, month, n - preceding + 1)
    else (year, month, n - preceding + 1).

(** [d.toordinal()] *)
Definition toordinal (d : datetime) : Z :=
  ymd2ord (year d) (month d) (day d).

(** [d.weekday()]: Monday is 0, Wednesday is 2. *)
Definition weekday (d : datetime) : Z := (toordinal d + 6) mod 7.

(** [d.replace(hour=h, minute=mi, second=s, microsecond=us)] *)
Definition replace_time (d : datetime) (h mi s us : Z) : datetime :=
  mkDatetime (year d) (month d) (day d) h mi s us.

(** [d + timedelta(days=k)]: [None] stands for [OverflowError], raised
    when the resulting ordinal leaves [1 .. MAXORDINAL]. *)
Definition add_days (d : datetime) (k : Z) : option datetime :=
  let o := toordinal d + k in
  if (0 <? o) && (o <=? MAXORDINAL) then
    let '(y, m, dd) := ord2ymd o in
    Some (mkDatetime y m dd (hour d) (minute d) (second d) (microsecond d))
  else None.

(** [d.strftime('%m/%d %H:%M')] *)
Definition strftime_md_HM (d : datetime) : string :=
  PyStr.two_digits (month d) ++ "/" ++ PyStr.two_digits (day d) ++ " "
  ++ PyStr.two_digits (hour d) ++ ":" ++ PyStr.two_digits (minute d).

(** The fields denote a date and a time of day that [datetime] accepts. *)
Definition valid (d : datetime) : Prop :=
  MINYEAR <= year d <= MAXYEAR /\
  1 <= month d <= 12 /\
  1 <= day d <= days_in_month (year d) (month d) /\
  0 <= hour d < 24 /\ 0 <= minute d < 60 /\ 0 <= second d < 60 /\
  0 <= microsecond d < 1000000.

End PyDatetime.

(* ===================================================================== *)
(** ** [dateutil.relativedelta], for the fields the script sets *)
(* ===================================================================== *)

Module Dateutil.
Import PyDatetime.

(** [relativedelta(days=days, weekday=weekday(wd)(nth))] *)
Record relativedelta : Type := mkRelativedelta {
  days : Z;
  rd_weekday : Z;
  rd_nth : Z
}.

Definition WE : Z := 2.

(** [dt + rd]: first the relative [days], then the jump to the [nth]
    weekday; a negative [nth] looks backwards and counts [dt] itself. *)
Definition radd (dt : datetime) (rd : relativedelta) : option datetime :=
  match add_days dt (days rd) with
  | None => None
  | Some ret =>
      let jumpdays := (Z.abs (rd_nth rd) - 1) * 7 in
      let jumpdays :=
        if 0 <? rd_nth rd
        then jumpdays + (7 - weekday ret + rd_weekday rd) mod 7
        else (jumpdays + (weekday ret - rd_weekday rd) mod 7) * -1 in
      add_days ret jumpdays
  end.

End Dateutil.

(* ===================================================================== *)
(** ** Effects: standard output, the logger, the clock and exceptions *)
(* ===================================================================== *)

Import PyDatetime.

(** What the process can observe and change.  [stdout] holds the argument
    of every [print] call, oldest first; [log] the messages handed to
    [logger.warning]; [clock k] is what the [k]-th call of [datetime.now]
    returns and [reads] counts the calls made so far, those of the script
    ([get_oncall_start]) and those of the timestamp parser alike. *)
Record World : Type := mkWorld {
  stdout : list string;
  log : list string;
  clock : nat -> datetime;
  reads : nat
}.

Inductive exn : Type :=
| AttributeError (attr : string)
| OverflowError
| ParserError.

Inductive result (A : Type) : Type :=
| Ok (a : A)
| Raise (e : exn).
Arguments Ok {A} a.
Arguments Raise {A} e.

(** A computation runs in a world and leaves a world behind, also when it
    raises: what was printed before the exception stays printed. *)
Definition M (A : Type) : Type := World -> result A * World.

Definition ret {A} (a : A) : M A := fun w => (Ok a, w).

Definition raise {A} (e : exn) : M A := fun w => (Raise e, w).

Definition bind {A B} (c : M A) (k : A -> M B) : M B :=
  fun w =>
    match c w with
    | (Ok a, w') => k a w'
    | (Raise e, w') => (Raise e, w')
    end.

Notation "x <- c ;; k" := (bind c (fun x => k))
  (at level 61, c at next level, right associativity).
Notation "c ;;; k" := (bind c (fun _ => k))
  (at level 61, right associativity).

(** [print(s)] *)
Definition print (s : string) : M unit :=
  fun w => (Ok tt, mkWorld (stdout w ++ [s])%list (log w) (clock w) (reads w)).

(** [logger.warning(s)] *)
Definition logger_warning (s : string) : M unit :=
  fun w => (Ok tt, mkWorld (stdout w) (log w ++ [s])%list (clock w) (reads w)).

(** [datetime.now(tz=tz.tzlocal())] *)
Definition datetime_now : M datetime :=
  fun w => (Ok (clock w (reads w)),
            mkWorld (stdout w) (log w) (clock w) (S (reads w))).

(** A [datetime] operation that raises [OverflowError] out of range. *)
Definition or_overflow (o : option datetime) : M datetime :=
  match o with
  | Some d => ret d
  | None => raise OverflowError
  end.

(** [for x in l: body(x)] *)
Fixpoint for_each {A} (l : list A) (body : A -> M unit) : M unit :=
  match l with
  | [] => ret tt
  | x :: l' => body x ;;; for_each l' body
  end.

(** [for x in l: s = body(s, x)] for a loop that updates local variables. *)
Fixpoint for_fold {A S} (l : list A) (s : S) (body : S -> A -> M S) : M S :=
  match l with
  | [] => ret s
  | x :: l' => s' <- body s x ;; for_fold l' s' body
  end.

(* ===================================================================== *)
(** ** Data: what the collaborator returns and what the script builds *)
(* ===================================================================== *)

(** A service of an escalation policy: [service.id], [service.summary]. *)
Record Service : Type := mkService {
  service_id : string;
  service_summary : string
}.

(** A note of an incident: [note.user.summary], [note.content]. *)
Record Note : Type := mkNote {
  user_summary : string;
  content : string
}.

(** An incident as the client library hands it over.  [title], [summary]
    and [id] are attributes that may be missing ([hasattr]);
    [incident_notes] is what [incident.notes.list()] yields and
    [incident_str] what ['{}'.format(incident)] yields. *)
Record Incident : Type := mkIncident {
  incident_service : Service;
  html_url : string;
  incident_urgency : string;
  title : option string;
  summary : option string;
  id_ : option string;
  created_at : string;
  incident_notes : list Note;
  incident_str : string
}.

(** A [FormattedIncident] after [get_formatted_incidents] has filled it.
    The class declares no attribute, so one that was never assigned is
    missing: [description] is [None] then and reading it raises. *)
Record FormattedIncident : Type := mkFormattedIncident {
  service : string;
  url : string;
  urgency : string;
  description : option string;
  created_on : datetime;
  notes : list string;
  last_note : string
}.

(** The collaborators: [settings], the incident-management client and the
    timestamp parser with the conversion to the local zone.
    [parse_local default s] is what [dateutil.parser.parse(s)] followed by
    [astimezone(LOCAL_TZ)] gives when the parser fills the fields missing
    from [s] from [default], and [None] when one of the two raises. *)
Record Collaborators : Type := mkCollaborators {
  ESCALATION_POLICIES : list string;
  escalation_policies_show_services : string -> list Service;
  incidents_list : list string -> datetime -> datetime -> list Incident;
  parse_local : datetime -> string -> option datetime
}.

(** [defaultdict(list)] keyed by strings, in insertion order. *)
Definition pydict : Type := list (string * list FormattedIncident).

(** [d[k].append(v)] *)
Fixpoint dict_append (d : pydict) (k : string) (v : FormattedIncident) : pydict :=
  match d with
  | [] => [(k, [v])]
  | (k', l) :: d' =>
      if (k' =? k)%string then (k', (l ++ [v])%list) :: d'
      else (k', l) :: dict_append d' k v
  end.

(* ===================================================================== *)
(** ** The script *)
(* ===================================================================== *)

(** [FormattedIncident.is_high_urgency] *)
Definition is_high_urgency (self : FormattedIncident) : bool :=
  negb ((urgency self =? "low")%string || PyStr.contains "-low-" (service self)).

(** [get_oncall_start()] *)
Definition get_oncall_start : M datetime :=
  today <- datetime_now ;;
  let today := replace_time today 12 0 0 0 in
  if weekday today =? 2
  then or_overflow
         (Dateutil.radd today (Dateutil.mkRelativedelta (-1) Dateutil.WE (-1)))
  else or_overflow
         (Dateutil.radd today (Dateutil.mkRelativedelta 0 Dateutil.WE (-1))).

(** Reading [incident.description]. *)
Definition get_description (i : FormattedIncident) : M string :=
  match description i with
  | Some d => ret d
  | None => raise (AttributeError "description")
  end.

(** The bullet of one incident in [print_pages_by_description]. *)
Definition print_bullet (i : FormattedIncident) : M unit :=
  if (last_note i =? "NO NOTE")%string
  then print ("- [alarm paged](" ++ url i ++ ") - no note")
  else print ("- [alarm paged](" ++ url i ++ ") - " ++ last_note i).

(** [print_pages_by_description(incidents)] *)
Definition print_pages_by_description (incidents : list FormattedIncident)
  : M unit :=
  desc_to_incident_list <-
    for_fold incidents ([] : pydict)
      (fun d incident =>
         k <- get_description incident ;;
         ret (dict_append d k incident)) ;;
  for_each desc_to_incident_list
    (fun '(desc, incidents) =>
       print (PyStr.nl ++ "**" ++ desc ++ "** [Paged "
              ++ PyStr.str_int (Z.of_nat (List.length incidents)) ++ " times]:") ;;;
       for_each incidents print_bullet).

(** [print_pages_by_notes(incidents)] *)
Definition print_pages_by_notes (incidents : list FormattedIncident) : M unit :=
  note_to_incident_list <-
    for_fold incidents ([] : pydict)
      (fun d incident => ret (dict_append d (last_note incident) incident)) ;;
  for_each note_to_incident_list
    (fun '(note, incidents) =>
       print (PyStr.nl ++ note ++ " generated "
              ++ PyStr.str_int (Z.of_nat (List.length incidents)) ++ " incidents:") ;;;
       for_each incidents
         (fun i =>
            d <- get_description i ;;
            print (String (ascii_of_nat 9) "- " ++ d ++ " (" ++ url i ++ ")"))).

(** [is_actionable], [is_non_actionable], [is_transient] *)
Definition is_actionable (incident : FormattedIncident) : bool :=
  existsb (PyStr.contains "#a") (notes incident).

Definition is_non_actionable (incident : FormattedIncident) : bool :=
  existsb (PyStr.contains "#na") (notes incident).

Definition is_transient (incident : FormattedIncident) : bool :=
  existsb (PyStr.contains "#t") (notes incident).

(** [get_breakdown(incidents)]: the four counters after the loop. *)
Definition get_breakdown (incidents : list FormattedIncident) : Z * Z * Z * Z :=
  fold_left
    (fun counters i =>
       let '(actionable, non_actionable, transient, not_tagged) := counters in
       if is_actionable i
       then (actionable + 1, non_actionable, transient, not_tagged)
       else if is_non_actionable i
       then (actionable, non_actionable + 1, transient, not_tagged)
       else if is_transient i
       then (actionable, non_actionable, transient + 1, not_tagged)
       else (actionable, non_actionable, transient, not_tagged + 1))
    incidents (0, 0, 0, 0).

(** One row of the statistics table. *)
Definition stats_row (label : string) (h l : Z) : string :=
  "| " ++ label ++ " | " ++ PyStr.format_int_width 12 h ++ " | "
  ++ PyStr.format_int_width 11 l ++ " |" ++ PyStr.nl.

(** The text [print_stats] formats. *)
Definition stats_text (formatted_start formatted_end : string)
    (h_a l_a h_na l_na h_t l_t h_nt l_nt h_total l_total : Z) : string :=
  PyStr.nl ++ "# Statistics from " ++ formatted_start ++ " to " ++ formatted_end
  ++ PyStr.nl
  ++ "| Incidents            | High Urgency | Low Urgency |" ++ PyStr.nl
  ++ "| -------------------- | ------------ | ----------- |" ++ PyStr.nl
  ++ stats_row "Actionable (#a)     " h_a l_a
  ++ stats_row "Non Actionable (#na)" h_na l_na
  ++ stats_row "Transient (#t)      " h_t l_t
  ++ stats_row "Not Tagged          " h_nt l_nt
  ++ stats_row "TOTAL               " h_total l_total.

(** [print_stats(high_urg_incidents, low_urg_incidents)] *)
Definition print_stats (high_urg_incidents low_urg_incidents : list FormattedIncident)
  : M unit :=
  let '(h_a, h_na, h_t, h_nt) := get_breakdown high_urg_incidents in
  let '(l_a, l_na, l_t, l_nt) := get_breakdown low_urg_incidents in
  oncall_start <- get_oncall_start ;;
  oncall_end <- or_overflow (add_days oncall_start 7) ;;
  let formatted_start := strftime_md_HM oncall_start in
  let formatted_end := strftime_md_HM oncall_end in
  print (stats_text formatted_start formatted_end
           h_a l_a h_na l_na h_t l_t h_nt l_nt
           (Z.of_nat (List.length high_urg_incidents))
           (Z.of_nat (List.length low_urg_incidents))).

Section Script.

Variable env : Collaborators.

(** [recent_incidents_for_services(services)] *)
Definition recent_incidents_for_services (services : list Service)
  : M (list Incident) :=
  let service_ids := map service_id services in
  on_call_start <- get_oncall_start ;;
  on_call_end <- or_overflow (add_days on_call_start 8) ;;
  ret (incidents_list env service_ids on_call_start on_call_end).

(** The body of the loop of [get_formatted_incidents].  The parser is
    called without a default, so it takes one from the clock first:
    [datetime.datetime.now().replace(hour=0, minute=0, second=0,
    microsecond=0)]. *)
Definition format_incident (incident : Incident) : M FormattedIncident :=
  let service := service_summary (incident_service incident) in
  let url := html_url incident in
  let urgency := incident_urgency incident in
  description <-
    match title incident, summary incident, id_ incident with
    | Some t, _, _ => ret (Some t)
    | None, Some s, _ => ret (Some s)
    | None, None, Some i => ret (Some i)
    | None, None, None =>
        logger_warning ("action=get_description status=not_found incident="
                        ++ incident_str incident) ;;;
        ret None
    end ;;
  created_on <-
    (now <- datetime_now ;;
     let default := replace_time now 0 0 0 0 in
     match parse_local env default (created_at incident) with
     | Some d => ret d
     | None => raise ParserError
     end) ;;
  let notes := incident_notes incident in
  let formatted_notes :=
    fold_left
      (fun acc note =>
         (acc ++ [(user_summary note ++ ": " ++ content note)%string])%list)
      notes [] in
  let last_note :=
    match formatted_notes with
    | [] => "NO NOTE"
    | _ :: _ => List.last formatted_notes ""
    end in
  ret (mkFormattedIncident service url urgency description created_on
         formatted_notes last_note).

(** [get_formatted_incidents(recent_incidents)] *)
Definition get_formatted_incidents (recent_incidents : list Incident)
  : M (list FormattedIncident) :=
  for_fold recent_incidents []
    (fun formatted_incidents incident =>
       formatted_incident <- format_incident incident ;;
       ret (formatted_incidents ++ [formatted_incident])%list).

(** [print_all_incidents(include_low)] *)
Definition print_all_incidents (include_low : bool) : M unit :=
  let services :=
    fold_left
      (fun services escalation_policy =>
         (services ++ escalation_policies_show_services env escalation_policy)%list)
      (ESCALATION_POLICIES env) [] in
  recent_incidents <- recent_incidents_for_services services ;;
  all_incidents <- get_formatted_incidents recent_incidents ;;
  let high_urg_incidents := filter is_high_urgency all_incidents in
  let low_urg_incidents :=
    filter (fun i => negb (is_high_urgency i)) all_incidents in
  print (PyStr.nl ++ "########## High Urgency Pages ##########") ;;;
  print_pages_by_description high_urg_incidents ;;;
  (if include_low
   then print (PyStr.nl ++ "########## Low Urgency Pages ##########") ;;;
        print_pages_by_description low_urg_incidents
   else ret tt) ;;;
  print_stats high_urg_incidents low_urg_incidents ;;;
  print ("Total Pages: " ++ PyStr.str_int (Z.of_nat (List.length all_incidents))).

(** The entry point: [--include-low] is a [store_true] flag whose default
    is [False]. *)
Definition main (include_low_given : bool) : M unit :=
  print_all_incidents (if include_low_given then true else false).

End Script.


(* ===================================================================== *)
(** ** Vocabulary of the statements *)
(* ===================================================================== *)

(** *** Worlds *)

(** The world after one more reading of the clock. *)
Definition tick (w : World) : World :=
  mkWorld (stdout w) (log w) (clock w) (S (reads w)).

(** The world after [lines] were printed. *)
Definition printed (lines : list string) (w : World) : World :=
  mkWorld (stdout w ++ lines)%list (log w) (clock w) (reads w).

(** The world after [n] more readings of the clock. *)
Definition ticks (n : nat) (w : World) : World :=
  mkWorld (stdout w) (log w) (clock w) (n + reads w).

(** The world after [msgs] were logged. *)
Definition logged (msgs : list string) (w : World) : World :=
  mkWorld (stdout w) (log w ++ msgs)%list (clock w) (reads w).

(** A clock reading for which the whole report can be computed: a date
    that [datetime] accepts, not among the first three days of year 1
    (no Wednesday lies before them) nor the last seven of year 9999 (the
    end of the window would lie after them). *)
Definition clock_ok (d : datetime) : Prop :=
  valid d /\ 4 <= toordinal d <= MAXORDINAL - 7.

(** *** The calendar *)

(** [p] holds on [lo], [lo + 1], ..., [lo + fuel - 1]. *)
Fixpoint forall_from (fuel : nat) (lo : Z) (p : Z -> bool) : bool :=
  match fuel with
  | O => true
  | S fuel' => p lo && forall_from fuel' (lo + 1) p
  end.

(** The month and the day that [ord2ymd] finds for the day numbered [n]
    (from 0) of a year. *)
Definition month_day (n : Z) (leapyear : bool) : Z * Z :=
  let month := Z.shiftr (n + 50) 5 in
  let preceding :=
    DAYS_BEFORE_MONTH month + (if (2 <? month) && leapyear then 1 else 0) in
  if n <? preceding then
    let month := month - 1 in
    let preceding :=
      preceding
      - (DAYS_IN_MONTH month + (if (month =? 2) && leapyear then 1 else 0)) in
    (month, n - preceding + 1)
  else (month, n - preceding + 1).

Definition month_day_check (leapyear : bool) (n : Z) : bool :=
  let '(m, dd) := month_day n leapyear in
  DAYS_BEFORE_MONTH m + (if (2 <? m) && leapyear then 1 else 0) + dd =? n + 1.

(** Year [y + 1] of a 400-year cycle, by its century, its group of four
    years and its place in the group. *)
Definition year_check (y : Z) : bool :=
  let n100 := y / 100 in
  let n4 := (y mod 100) / 4 in
  let n1 := y mod 4 in
  (days_before_year (y + 1) =? 36524 * n100 + 1461 * n4 + 365 * n1)
  && Bool.eqb (is_leap (y + 1))
       ((n1 =? 3) && (negb (n4 =? 24) || (n100 =? 3))).

(** *** Normalised incidents *)

(** The description the specification asks for: the title, else the
    summary, else the identifier. *)
Definition resolve_description (r : Incident) : option string :=
  match title r with
  | Some t => Some t
  | None => match summary r with
            | Some s => Some s
            | None => id_ r
            end
  end.

Definition format_note (n : Note) : string :=
  user_summary n ++ ": " ++ content n.

(** What the logger receives for one incident. *)
Definition warning_of (r : Incident) : list string :=
  match resolve_description r with
  | Some _ => []
  | None => ["action=get_description status=not_found incident=" ++ incident_str r]
  end.

(** [f] is the formatted incident of [r]. *)
Definition normalized (env : Collaborators) (r : Incident) (f : FormattedIncident)
  : Prop :=
  service f = service_summary (incident_service r) /\
  url f = html_url r /\
  urgency f = incident_urgency r /\
  description f = resolve_description r /\
  (exists now,
      parse_local env (replace_time now 0 0 0 0) (created_at r)
      = Some (created_on f)) /\
  notes f = map format_note (incident_notes r) /\
  last_note f = List.last (notes f) "NO NOTE".

(** The timestamp of [r] parses when the clock reads [now]. *)
Definition parses_at (env : Collaborators) (now : datetime) (r : Incident)
  : Prop :=
  parse_local env (replace_time now 0 0 0 0) (created_at r) <> None.

(** Every timestamp of [raws] parses, the first at the clock reading
    number [k], the next at number [k + 1], and so on: the normaliser
    started at reading [k] raises on none of them. *)
Fixpoint all_parse (env : Collaborators) (clk : nat -> datetime) (k : nat)
    (raws : list Incident) : Prop :=
  match raws with
  | [] => True
  | r :: raws' => parses_at env (clk k) r /\ all_parse env clk (S k) raws'
  end.

Definition has_description (i : FormattedIncident) : Prop :=
  description i <> None.

(** *** Dispositions *)

Inductive Disposition : Type :=
| Actionable
| NonActionable
| Transient
| NotTagged.

Definition Disposition_eqb (a b : Disposition) : bool :=
  match a, b with
  | Actionable, Actionable | NonActionable, NonActionable
  | Transient, Transient | NotTagged, NotTagged => true
  | _, _ => false
  end.

(** Some note of the incident contains [tag]. *)
Definition has_tag (tag : string) (i : FormattedIncident) : bool :=
  existsb (PyStr.contains tag) (notes i).

(** The disposition the specification gives an incident: the first of
    [#a], [#na], [#t] found in its notes. *)
Definition disposition (i : FormattedIncident) : Disposition :=
  if has_tag "#a" i then Actionable
  else if has_tag "#na" i then NonActionable
  else if has_tag "#t" i then Transient
  else NotTagged.

Definition count_disposition (d : Disposition) (l : list FormattedIncident) : Z :=
  Z.of_nat (List.length (filter (fun i => Disposition_eqb (disposition i) d) l)).

(** The body of the loop of [get_breakdown]. *)
Definition breakdown_step (counters : Z * Z * Z * Z) (i : FormattedIncident)
  : Z * Z * Z * Z :=
  let '(actionable, non_actionable, transient, not_tagged) := counters in
  if is_actionable i
  then (actionable + 1, non_actionable, transient, not_tagged)
  else if is_non_actionable i
  then (actionable, non_actionable + 1, transient, not_tagged)
  else if is_transient i
  then (actionable, non_actionable, transient + 1, not_tagged)
  else (actionable, non_actionable, transient, not_tagged + 1).

(** *** Groups and lines of the report *)

(** The key under which an incident with a description is grouped. *)
Definition desc_key (i : FormattedIncident) : string :=
  match description i with
  | Some d => d
  | None => ""
  end.

Definition with_key (k : string) (i : FormattedIncident) : bool :=
  (desc_key i =? k)%string.

(** [d.get(k, [])] *)
Definition dict_get (d : pydict) (k : string) : list FormattedIncident :=
  match find (fun e => (fst e =? k)%string) d with
  | Some e => snd e
  | None => []
  end.

(** The dictionary [print_pages_by_description] builds. *)
Definition group_by_description (incidents : list FormattedIncident) : pydict :=
  fold_left (fun d i => dict_append d (desc_key i) i) incidents [].

Definition no_note_line (u : string) : string :=
  "- [alarm paged](" ++ u ++ ") - no note".

Definition bullet_text (i : FormattedIncident) : string :=
  if (last_note i =? "NO NOTE")%string
  then no_note_line (url i)
  else "- [alarm paged](" ++ url i ++ ") - " ++ last_note i.

Definition group_header (desc : string) (count : Z) : string :=
  PyStr.nl ++ "**" ++ desc ++ "** [Paged " ++ PyStr.str_int count ++ " times]:".

Definition group_lines (g : string * list FormattedIncident) : list string :=
  group_header (fst g) (Z.of_nat (List.length (snd g))) :: map bullet_text (snd g).

Definition pages_lines (incidents : list FormattedIncident) : list string :=
  flat_map group_lines (group_by_description incidents).

Definition HIGH_HEADER : string :=
  PyStr.nl ++ "########## High Urgency Pages ##########".

Definition LOW_HEADER : string :=
  PyStr.nl ++ "########## Low Urgency Pages ##########".

(** The statistics table for a window from [s] to [e]. *)
Definition stats_lines (high low : list FormattedIncident) (s e : datetime)
  : string :=
  let '(h_a, h_na, h_t, h_nt) := get_breakdown high in
  let '(l_a, l_na, l_t, l_nt) := get_breakdown low in
  stats_text (strftime_md_HM s) (strftime_md_HM e)
    h_a l_a h_na l_na h_t l_t h_nt l_nt
    (Z.of_nat (List.length high)) (Z.of_nat (List.length low)).

Definition total_line (all : list FormattedIncident) : string :=
  "Total Pages: " ++ PyStr.str_int (Z.of_nat (List.length all)).

(** The services [print_all_incidents] collects. *)
Definition services_of (env : Collaborators) : list Service :=
  fold_left
    (fun services escalation_policy =>
       (services ++ escalation_policies_show_services env escalation_policy)%list)
    (ESCALATION_POLICIES env) [].

(** *** Sample data *)

Definition wednesday_morning : datetime := mkDatetime 2024 1 10 9 30 0 0.

Definition sample_world : World := mkWorld [] [] (fun _ => wednesday_morning) 0.

Definition incident_with_notes (ns : list string) : FormattedIncident :=
  mkFormattedIncident "svc" "url" "high" (Some "d")
    (mkDatetime 2024 1 10 12 0 0 0) ns (List.last ns "NO NOTE").

Definition incident_without_description : Incident :=
  mkIncident (mkService "S1" "checkout-prod") "https://pd/incidents/1" "high"
    None None None "2024-01-09T08:00:00Z" [] "<Incident 1>".

Definition sample_incident : Incident :=
  mkIncident (mkService "S1" "checkout-prod") "https://pd/incidents/2" "high"
    (Some "DB CPU high") (Some "cpu") (Some "Q2") "2024-01-09T08:00:00Z"
    [mkNote "x" "hi"; mkNote "y" "bye"] "<Incident 2>".

Definition untagged_incident : Incident :=
  mkIncident (mkService "S1" "checkout-prod") "https://pd/incidents/3" "high"
    (Some "DB CPU high") None None "2024-01-09T09:00:00Z" [] "<Incident 3>".

Definition sample_env (incidents : list Incident) : Collaborators :=
  mkCollaborators ["P1"] (fun _ => [mkService "S1" "checkout-prod"])
    (fun _ _ _ => incidents)
    (fun _ _ => Some (mkDatetime 2024 1 9 8 0 0 0)).

Definition missing_description_warning : string :=
  "action=get_description status=not_found incident=<Incident 1>".

(** *** Further vocabulary *)

(** Two breakdowns added counter by counter. *)
Definition quad_add (a b : Z * Z * Z * Z) : Z * Z * Z * Z :=
  let '(a1, a2, a3, a4) := a in
  let '(b1, b2, b3, b4) := b in
  (a1 + b1, a2 + b2, a3 + b3, a4 + b4).

(** The dictionary built by appending every incident under [key]. *)
Definition group_by (key : FormattedIncident -> string)
    (incidents : list FormattedIncident) : pydict :=
  fold_left (fun d i => dict_append d (key i) i) incidents [].

Definition notes_header (note : string) (count : Z) : string :=
  PyStr.nl ++ note ++ " generated " ++ PyStr.str_int count ++ " incidents:".

Definition notes_bullet (i : FormattedIncident) : string :=
  String (ascii_of_nat 9) "- " ++ desc_key i ++ " (" ++ url i ++ ")".

Definition notes_group_lines (g : string * list FormattedIncident)
  : list string :=
  notes_header (fst g) (Z.of_nat (List.length (snd g)))
  :: map notes_bullet (snd g).

(** The urgency test of [is_high_urgency], read on the raw incident. *)
Definition incident_is_high (r : Incident) : bool :=
  negb ((incident_urgency r =? "low")%string
        || PyStr.contains "-low-" (service_summary (incident_service r))).

Definition wednesday_evening : datetime := mkDatetime 2024 1 10 21 5 0 0.

Definition evening_world : World := mkWorld [] [] (fun _ => wednesday_evening) 0.

Definition unparsable_env (incidents : list Incident) : Collaborators :=
  mkCollaborators ["P1"] (fun _ => [mkService "S1" "checkout-prod"])
    (fun _ _ _ => incidents) (fun _ _ => None).

Definition low_incident_without_description : Incident :=
  mkIncident (mkService "S2" "checkout-low-priority") "https://pd/incidents/4"
    "high" None None None "2024-01-09T10:00:00Z" [] "<Incident 4>".

(* ===================================================================== *)
(** ** Lemmas *)
(* ===================================================================== *)

(** *** Strings *)

(** Concatenation of strings is associative. *)
Lemma append_assoc (a b c : string) : (a ++ b) ++ c = a ++ (b ++ c).
Proof. induction a as [|x a IH]; cbn; [reflexivity | now rewrite IH]. Qed.

(** A common prefix can be cancelled. *)
Lemma append_inj_l (a b c : string) : a ++ b = a ++ c -> b = c.
Proof.
  induction a as [|x a IH]; cbn; intros H; [exact H|].
  injection H as H. auto.
Qed.

(** [String.prefix a b] holds exactly when [b] starts with [a]. *)
Lemma prefix_iff (a b : string) :
  String.prefix a b = true <-> exists c, b = a ++ c.
Proof.
  revert b. induction a as [|x a IH]; intros b.
  - destruct b; cbn; split; eauto.
  - destruct b as [|y b]; cbn.
    + split; [discriminate | intros [c Hc]; discriminate].
    + destruct (Ascii.ascii_dec x y) as [->|Hne].
      * rewrite IH. split; intros [c Hc]; exists c; congruence.
      * split; [discriminate | intros [c Hc]; congruence].
Qed.

(** [sub in s] holds exactly when [sub] occurs somewhere in [s]. *)
Lemma contains_iff (sub s : string) :
  PyStr.contains sub s = true <-> exists pre post, s = pre ++ sub ++ post.
Proof.
  induction s as [|x s IH]; cbn [PyStr.contains].
  - rewrite orb_false_r, prefix_iff. split.
    + intros [c Hc]. exists "", c. exact Hc.
    + intros (pre & post & H). destruct pre; [eauto|discriminate].
  - rewrite orb_true_iff, prefix_iff, IH. split.
    + intros [[c Hc] | (pre & post & H)].
      * exists "", c. exact Hc.
      * exists (String x pre), post. cbn. now rewrite H.
    + intros (pre & post & H). destruct pre as [|y pre].
      * left. eauto.
      * right. cbn in H. injection H as _ H. eauto.
Qed.

Lemma contains_append (sub a b : string) :
  PyStr.contains sub (a ++ sub ++ b) = true.
Proof. apply contains_iff. eauto. Qed.

(** *** The calendar *)

(** A successful bounded check covers every integer of its range. *)
Lemma forall_from_spec (fuel : nat) (p : Z -> bool) :
  forall lo, forall_from fuel lo p = true ->
  forall z, lo <= z < lo + Z.of_nat fuel -> p z = true.
Proof.
  induction fuel as [|fuel IH]; intros lo H z Hz.
  - lia.
  - cbn [forall_from] in H. apply andb_true_iff in H as [Hlo Hrest].
    destruct (Z.eq_dec z lo) as [->|Hne]; [assumption|].
    apply (IH (lo + 1)); [assumption | lia].
Qed.

(** Leap years repeat every 400 years. *)
Lemma is_leap_period (y q : Z) : is_leap (y + 400 * q) = is_leap y.
Proof.
  unfold is_leap.
  replace (y + 400 * q) with (y + (100 * q) * 4) at 1 by lia.
  replace (y + 400 * q) with (y + (4 * q) * 100) at 1 by lia.
  replace (y + 400 * q) with (y + q * 400) by lia.
  now rewrite !Z_mod_plus_full.
Qed.

(** A cycle of 400 years has 146097 days. *)
Lemma days_before_year_period (y q : Z) :
  days_before_year (y + 400 * q) = days_before_year y + 146097 * q.
Proof.
  unfold days_before_year. cbv zeta.
  Z.div_mod_to_equations. lia.
Qed.

Lemma ymd2ord_period (y m d q : Z) :
  ymd2ord (y + 400 * q) m d = ymd2ord y m d + 146097 * q.
Proof.
  unfold ymd2ord, days_before_month.
  rewrite is_leap_period, days_before_year_period. lia.
Qed.

(** [ord2ymd] works cycle by cycle: the date of an ordinal is the date
    within its 400-year cycle, moved by the cycle's years. *)
Lemma ord2ymd_period (q r : Z) :
  0 <= r < 146097 ->
  ord2ymd (146097 * q + r + 1) =
  let '(y, m, d) := ord2ymd (r + 1) in (y + 400 * q, m, d).
Proof.
  intros Hr. unfold ord2ymd. cbv zeta. unfold DI400Y.
  replace (146097 * q + r + 1 - 1) with (r + q * 146097) by lia.
  replace (r + 1 - 1) with r by lia.
  rewrite Z.div_add, Z_mod_plus_full by lia.
  rewrite (Z.div_small r 146097), (Z.mod_small r 146097) by lia.
  repeat match goal with
         | |- context [if ?b then _ else _] => destruct b
         end; f_equal; try f_equal; lia.
Qed.

(** The month and day of each of the 365 day numbers, checked one by one. *)
Lemma month_day_base (leapyear : bool) :
  forall_from 365 0 (month_day_check leapyear) = true.
Proof. destruct leapyear; vm_compute; reflexivity. Qed.

(** The 400 years of a cycle, checked one by one. *)
Lemma year_base : forall_from 400 0 year_check = true.
Proof. vm_compute. reflexivity. Qed.

Lemma month_day_spec (n : Z) (leapyear : bool) :
  0 <= n < 365 ->
  let '(m, dd) := month_day n leapyear in
  DAYS_BEFORE_MONTH m + (if (2 <? m) && leapyear then 1 else 0) + dd = n + 1.
Proof.
  intros Hn.
  pose proof (forall_from_spec _ _ 0 (month_day_base leapyear) n) as H.
  unfold month_day_check in H. destruct (month_day n leapyear) as [m dd].
  apply Z.eqb_eq, H. cbn. lia.
Qed.

Lemma year_spec (n100 n4 n1 : Z) :
  0 <= n100 <= 3 -> 0 <= n4 <= 24 -> 0 <= n1 <= 3 ->
  days_before_year (1 + (n100 * 100 + n4 * 4 + n1))
  = 36524 * n100 + 1461 * n4 + 365 * n1 /\
  is_leap (1 + (n100 * 100 + n4 * 4 + n1))
  = (n1 =? 3) && (negb (n4 =? 24) || (n100 =? 3)).
Proof.
  intros H100 H4 H1.
  set (y := n100 * 100 + n4 * 4 + n1).
  pose proof (forall_from_spec _ _ 0 year_base y) as H.
  unfold year_check in H. cbv zeta in H.
  assert (E100 : y / 100 = n100) by (unfold y; Z.div_mod_to_equations; lia).
  assert (E4 : (y mod 100) / 4 = n4) by (unfold y; Z.div_mod_to_equations; lia).
  assert (E1 : y mod 4 = n1) by (unfold y; Z.div_mod_to_equations; lia).
  rewrite E100, E4, E1 in H.
  assert (Hy : 0 <= y < 0 + Z.of_nat 400) by (unfold y; cbn; lia).
  apply H in Hy. apply andb_true_iff in Hy as [Hd Hl].
  apply Z.eqb_eq in Hd. apply Bool.eqb_prop in Hl.
  replace (1 + y) with (y + 1) by lia. split; assumption.
Qed.

(** Within the first cycle, [ymd2ord] undoes [ord2ymd] on every day. *)
Lemma ymd2ord_ord2ymd_cycle (r : Z) :
  0 <= r < 146097 ->
  let '(y, m, d) := ord2ymd (r + 1) in ymd2ord y m d = r + 1.
Proof.
  intros Hr. unfold ord2ymd. cbv zeta. unfold DI400Y, DI100Y, DI4Y.
  replace (r + 1 - 1) with r by lia.
  rewrite (Z.div_small r 146097), (Z.mod_small r 146097) by lia.
  change (0 * 400 + 1) with 1.
  pose proof (Z.div_mod r 36524 ltac:(lia)) as D100.
  pose proof (Z.mod_pos_bound r 36524 ltac:(lia)) as B100.
  set (n100 := r / 36524) in *. set (r1 := r mod 36524) in *.
  pose proof (Z.div_mod r1 1461 ltac:(lia)) as D4.
  pose proof (Z.mod_pos_bound r1 1461 ltac:(lia)) as B4.
  set (n4 := r1 / 1461) in *. set (r2 := r1 mod 1461) in *.
  pose proof (Z.div_mod r2 365 ltac:(lia)) as D1.
  pose proof (Z.mod_pos_bound r2 365 ltac:(lia)) as B1.
  set (n1 := r2 / 365) in *. set (n := r2 mod 365) in *.
  assert (N100 : 0 <= n100 <= 4) by lia.
  assert (N4 : 0 <= n4 <= 24) by lia.
  assert (N1 : 0 <= n1 <= 4) by lia.
  destruct (Z.eqb_spec n100 4) as [E100|E100].
  - (* the last day of the cycle *)
    rewrite orb_true_r.
    assert (Er : r = 146096) by lia.
    assert (E4 : n4 = 0) by lia. assert (E1 : n1 = 0) by lia.
    rewrite E100, E4, E1, Er. reflexivity.
  - destruct (Z.eqb_spec n1 4) as [E1|E1]; cbn [orb].
    + (* the last day of a leap year *)
      assert (Hn4 : n4 <= 23) by lia.
      destruct (year_spec n100 n4 3 ltac:(lia) ltac:(lia) ltac:(lia)) as [Hd Hl].
      rewrite E1.
      replace (1 + (n100 * 100 + n4 * 4 + 4) - 1)
        with (1 + (n100 * 100 + n4 * 4 + 3)) by lia.
      unfold ymd2ord, days_before_month. rewrite Hd, Hl.
      destruct (Z.eqb_spec n4 24) as [?|_]; [lia|].
      change (2 <? 12) with true. change (3 =? 3) with true.
      cbn [andb orb negb]. change (DAYS_BEFORE_MONTH 12) with 334. lia.
    + destruct (year_spec n100 n4 n1 ltac:(lia) ltac:(lia) ltac:(lia)) as [Hd Hl].
      set (leapyear := (n1 =? 3) && (negb (n4 =? 24) || (n100 =? 3))) in *.
      pose proof (month_day_spec n leapyear B1) as Hmd.
      unfold month_day in Hmd. cbv zeta in Hmd.
      destruct (n <? _);
        unfold ymd2ord, days_before_month; rewrite Hd, Hl; lia.
Qed.

(** [date.fromordinal(n).toordinal() == n]. *)
Lemma ymd2ord_ord2ymd (n : Z) :
  let '(y, m, d) := ord2ymd n in ymd2ord y m d = n.
Proof.
  pose proof (Z.div_mod (n - 1) 146097 ltac:(lia)) as Hdm.
  pose proof (Z.mod_pos_bound (n - 1) 146097 ltac:(lia)) as Hr.
  set (q := (n - 1) / 146097) in *. set (r := (n - 1) mod 146097) in *.
  replace n with (146097 * q + r + 1) by lia.
  rewrite ord2ymd_period by assumption.
  pose proof (ymd2ord_ord2ymd_cycle r Hr) as Hb.
  destruct (ord2ymd (r + 1)) as [[y m] d].
  rewrite ymd2ord_period. lia.
Qed.

(** Adding days moves the ordinal and keeps the time of day. *)
Lemma toordinal_add_days (d d' : datetime) (k : Z) :
  add_days d k = Some d' ->
  toordinal d' = toordinal d + k /\
  hour d' = hour d /\ minute d' = minute d /\
  second d' = second d /\ microsecond d' = microsecond d.
Proof.
  unfold add_days. intros H.
  destruct ((0 <? toordinal d + k) && (toordinal d + k <=? MAXORDINAL)); [|discriminate].
  pose proof (ymd2ord_ord2ymd (toordinal d + k)) as Hrt.
  destruct (ord2ymd (toordinal d + k)) as [[y m] dd].
  injection H as <-. unfold toordinal at 1. cbn. auto.
Qed.

(** Adding days does not raise while the result stays in range. *)
Lemma add_days_in_range (d : datetime) (k : Z) :
  0 < toordinal d + k <= MAXORDINAL ->
  exists d', add_days d k = Some d'.
Proof.
  intros [Hlo Hhi]. unfold add_days.
  apply Z.ltb_lt in Hlo. apply Z.leb_le in Hhi. rewrite Hlo, Hhi. cbn.
  destruct (ord2ymd (toordinal d + k)) as [[y m] dd]. eauto.
Qed.

Lemma days_before_year_mono (y : Z) :
  1 <= y <= 9999 -> 0 <= days_before_year y <= 3651694.
Proof.
  intros Hy. unfold days_before_year. cbv zeta.
  Z.div_mod_to_equations. lia.
Qed.

(** The ordinal of a valid date lies in [1 .. MAXORDINAL]. *)
Lemma toordinal_valid (d : datetime) :
  valid d -> 1 <= toordinal d <= MAXORDINAL.
Proof.
  unfold valid, MINYEAR, MAXYEAR, MAXORDINAL, toordinal, ymd2ord.
  intros (Hy & Hm & Hd & _).
  assert (Hcases : month d = 1 \/ month d = 2 \/ month d = 3 \/ month d = 4 \/
                   month d = 5 \/ month d = 6 \/ month d = 7 \/ month d = 8 \/
                   month d = 9 \/ month d = 10 \/ month d = 11 \/ month d = 12)
    by lia.
  assert (Hleap : is_leap (year d) = true -> year d <= 9996).
  { unfold is_leap. intros H. apply andb_true_iff in H as [H4 _].
    apply Z.eqb_eq in H4. Z.div_mod_to_equations. lia. }
  assert (Hstep : year d <= 9996 -> days_before_year (year d) <= 3651693 - 1000).
  { intros Hle. unfold days_before_year. cbv zeta. Z.div_mod_to_equations. lia. }
  pose proof (days_before_year_mono (year d) Hy) as Hdby.
  unfold days_in_month, days_before_month in *.
  destruct (is_leap (year d));
    repeat (destruct Hcases as [Hc|Hcases]; [rewrite Hc in *; cbn in *; lia|]);
    rewrite Hcases in *; cbn in *; lia.
Qed.

(** *** The start of the on-call window *)

(** [dt + relativedelta(days=k, weekday=WE(-1))] lands on the last
    Wednesday that is not after [dt + k days]. *)
Lemma radd_last_wednesday (dt : datetime) (k : Z) :
  0 < toordinal dt + k - (toordinal dt + k + 6 - 2) mod 7 ->
  toordinal dt + k <= MAXORDINAL ->
  exists r, Dateutil.radd dt (Dateutil.mkRelativedelta k Dateutil.WE (-1)) = Some r /\
            toordinal r = toordinal dt + k - (toordinal dt + k + 6 - 2) mod 7 /\
            hour r = hour dt /\ minute r = minute dt /\
            second r = second dt /\ microsecond r = microsecond dt.
Proof.
  set (o := toordinal dt + k). set (back := (o + 6 - 2) mod 7).
  intros Hlo Hhi.
  assert (Hback : 0 <= back < 7) by (apply Z.mod_pos_bound; lia).
  destruct (add_days_in_range dt k) as [ret Hret]; [fold o; lia|].
  destruct (toordinal_add_days _ _ _ Hret) as (Hord & Hh & Hmi & Hs & Hus).
  unfold Dateutil.radd.
  cbn [Dateutil.days Dateutil.rd_weekday Dateutil.rd_nth].
  rewrite Hret.
  change (0 <? -1) with false. change (Z.abs (-1) - 1) with 0. cbv iota zeta.
  assert (Hjump : (0 * 7 + (weekday ret - Dateutil.WE) mod 7) * -1 = - back).
  { unfold weekday, Dateutil.WE, back, o. rewrite Hord.
    rewrite Zminus_mod_idemp_l. lia. }
  rewrite Hjump.
  destruct (add_days_in_range ret (- back)) as [r Hr]; [fold o in Hord; lia|].
  destruct (toordinal_add_days _ _ _ Hr) as (Hord' & Hh' & Hmi' & Hs' & Hus').
  exists r. rewrite Hr. fold o in Hord. repeat split; try congruence; lia.
Qed.

(** [get_oncall_start] reads the clock once and returns what the relative
    delta gives for noon of that day. *)
Lemma get_oncall_start_eval (w : World) (r : datetime) :
  let today := replace_time (clock w (reads w)) 12 0 0 0 in
  (if weekday today =? 2
   then Dateutil.radd today (Dateutil.mkRelativedelta (-1) Dateutil.WE (-1))
   else Dateutil.radd today (Dateutil.mkRelativedelta 0 Dateutil.WE (-1)))
  = Some r ->
  get_oncall_start w = (Ok r, tick w).
Proof.
  intros today Hr. unfold get_oncall_start, bind, datetime_now.
  fold today. fold (tick w).
  destruct (weekday today =? 2); rewrite Hr; reflexivity.
Qed.

(** The run of [get_oncall_start]: it returns, at noon, seven days back on a
    Wednesday and otherwise as many days back as have passed since the last
    Wednesday. *)
Lemma get_oncall_start_run (w : World) :
  valid (clock w (reads w)) ->
  4 <= toordinal (clock w (reads w)) ->
  exists start,
    get_oncall_start w = (Ok start, tick w) /\
    hour start = 12 /\ minute start = 0 /\ second start = 0 /\
    microsecond start = 0 /\
    toordinal start =
      toordinal (clock w (reads w))
      - (if weekday (clock w (reads w)) =? 2 then 7
         else (toordinal (clock w (reads w)) + 6 - 2) mod 7).
Proof.
  set (now := clock w (reads w)). intros Hvalid Hlow.
  pose proof (toordinal_valid now Hvalid) as [_ Hhigh].
  set (today := replace_time now 12 0 0 0).
  pose proof (get_oncall_start_eval w) as Hrun. cbv zeta in Hrun.
  fold now in Hrun. fold today in Hrun.
  assert (Hwd : 0 <= weekday now < 7) by (apply Z.mod_pos_bound; lia).
  unfold weekday in Hwd.
  assert (Htoday : toordinal today = toordinal now) by reflexivity.
  change (weekday now) with (weekday today).
  destruct (weekday today =? 2) eqn:Hwed.
  - assert (Hw2 : weekday today = 2) by (apply Z.eqb_eq; exact Hwed).
    unfold weekday in Hw2. rewrite Htoday in Hw2.
    destruct (radd_last_wednesday today (-1)) as (r & Hr & Ho & Hh & Hmi & Hs & Hus);
      rewrite ?Htoday;
      try (Z.div_mod_to_equations; lia).
    exists r. split; [apply Hrun; exact Hr|].
    rewrite Htoday in Ho.
    repeat split; try assumption.
    rewrite Ho. Z.div_mod_to_equations. lia.
  - assert (Hw2 : weekday today <> 2) by (apply Z.eqb_neq; exact Hwed).
    unfold weekday in Hw2. rewrite Htoday in Hw2.
    destruct (radd_last_wednesday today 0) as (r & Hr & Ho & Hh & Hmi & Hs & Hus);
      rewrite ?Htoday;
      try (Z.div_mod_to_equations; lia).
    exists r. split; [apply Hrun; exact Hr|].
    rewrite Htoday in Ho.
    repeat split; try assumption.
    rewrite Ho, Z.add_0_r. reflexivity.
Qed.

(** On the first three days of year 1 there is no earlier Wednesday and
    the arithmetic leaves the range of [datetime]. *)
Lemma get_oncall_start_year_one (d h : Z) (w : World) :
  In d [1; 2; 3] ->
  clock w (reads w) = mkDatetime 1 1 d h 0 0 0 ->
  get_oncall_start w = (Raise OverflowError, tick w).
Proof.
  intros Hd Hnow. unfold get_oncall_start, bind, datetime_now.
  rewrite Hnow. fold (tick w).
  destruct Hd as [<-|[<-|[<-|[]]]]; reflexivity.
Qed.

(** Two worlds with the same clock reading get the same window start. *)
Lemma get_oncall_start_same_reading (w1 w2 : World) (start : datetime) :
  clock w1 (reads w1) = clock w2 (reads w2) ->
  get_oncall_start w1 = (Ok start, tick w1) ->
  get_oncall_start w2 = (Ok start, tick w2).
Proof.
  unfold get_oncall_start, bind, datetime_now, or_overflow, ret, raise.
  intros <-. fold (tick w1). fold (tick w2).
  destruct (weekday _ =? 2); destruct (Dateutil.radd _ _); congruence.
Qed.

(** *** Classification *)

(** A tag is found exactly when some note has it as a substring. *)
Lemma has_tag_iff (tag : string) (i : FormattedIncident) :
  has_tag tag i = true <->
  exists note pre post, In note (notes i) /\ note = pre ++ tag ++ post.
Proof.
  unfold has_tag. rewrite existsb_exists. split.
  - intros (note & Hin & Hc). apply contains_iff in Hc as (pre & post & H). eauto.
  - intros (note & pre & post & Hin & H). exists note. split; [exact Hin|].
    apply contains_iff. eauto.
Qed.

Lemma quadruple_eq (a b c d a' b' c' d' : Z) :
  a = a' -> b = b' -> c = c' -> d = d' -> (a, b, c, d) = (a', b', c', d').
Proof. congruence. Qed.

Ltac quadruple_lia := apply quadruple_eq; lia.

(** One turn of the loop increments the counter of the incident's
    disposition. *)
Lemma breakdown_step_disposition (a b c d : Z) (i : FormattedIncident) :
  breakdown_step (a, b, c, d) i =
  match disposition i with
  | Actionable => (a + 1, b, c, d)
  | NonActionable => (a, b + 1, c, d)
  | Transient => (a, b, c + 1, d)
  | NotTagged => (a, b, c, d + 1)
  end.
Proof.
  unfold breakdown_step, disposition, has_tag.
  unfold is_actionable, is_non_actionable, is_transient.
  destruct (existsb (PyStr.contains "#a") (notes i));
    [|destruct (existsb (PyStr.contains "#na") (notes i));
      [|destruct (existsb (PyStr.contains "#t") (notes i))]]; reflexivity.
Qed.

(** The loop adds to each counter the number of incidents of its
    disposition. *)
Lemma breakdown_loop (l : list FormattedIncident) :
  forall a b c d,
    fold_left breakdown_step l (a, b, c, d) =
    (a + count_disposition Actionable l,
     b + count_disposition NonActionable l,
     c + count_disposition Transient l,
     d + count_disposition NotTagged l).
Proof.
  unfold count_disposition.
  induction l as [|i l IH]; intros a b c d.
  - cbn [fold_left filter List.length]. quadruple_lia.
  - cbn [fold_left filter]. rewrite breakdown_step_disposition.
    destruct (disposition i); rewrite IH;
      cbn [Disposition_eqb List.length]; quadruple_lia.
Qed.

Lemma get_breakdown_counts (l : list FormattedIncident) :
  get_breakdown l =
  (count_disposition Actionable l, count_disposition NonActionable l,
   count_disposition Transient l, count_disposition NotTagged l).
Proof.
  unfold get_breakdown. change (fold_left _ l (0, 0, 0, 0))
    with (fold_left breakdown_step l (0, 0, 0, 0)).
  rewrite breakdown_loop. reflexivity.
Qed.

(** The four dispositions partition any list of incidents. *)
Lemma count_disposition_total (l : list FormattedIncident) :
  count_disposition Actionable l + count_disposition NonActionable l
  + count_disposition Transient l + count_disposition NotTagged l
  = Z.of_nat (List.length l).
Proof.
  unfold count_disposition. induction l as [|i l IH]; [reflexivity|].
  cbn [filter List.length]. destruct (disposition i); cbn [Disposition_eqb List.length]; lia.
Qed.

(** *** Worlds and runs *)

Lemma printed_nil (w : World) : printed [] w = w.
Proof. destruct w. unfold printed. cbn. now rewrite app_nil_r. Qed.

Lemma printed_printed (a b : list string) (w : World) :
  printed b (printed a w) = printed (a ++ b) w.
Proof. unfold printed. cbn. now rewrite app_assoc. Qed.

Lemma logged_nil (w : World) : logged [] w = w.
Proof. destruct w. unfold logged. cbn. now rewrite app_nil_r. Qed.

Lemma logged_logged (a b : list string) (w : World) :
  logged b (logged a w) = logged (a ++ b) w.
Proof. unfold logged. cbn. now rewrite app_assoc. Qed.

(** Sequencing after a computation that returns. *)
Lemma bind_ok {A B} (c : M A) (k : A -> M B) (w w' : World) (a : A) :
  c w = (Ok a, w') -> bind c k w = k a w'.
Proof. unfold bind. now intros ->. Qed.

(** Sequencing after a computation that raises. *)
Lemma bind_raise {A B} (c : M A) (k : A -> M B) (w w' : World) (e : exn) :
  c w = (Raise e, w') -> bind c k w = (Raise e, w').
Proof. unfold bind. now intros ->. Qed.

Lemma print_run (s : string) (w : World) : print s w = (Ok tt, printed [s] w).
Proof. reflexivity. Qed.

Lemma ticks_zero (w : World) : ticks 0 w = w.
Proof. destruct w. reflexivity. Qed.

Lemma ticks_tick (n : nat) (w : World) : ticks n (tick w) = ticks (S n) w.
Proof. unfold ticks, tick. cbn. now rewrite Nat.add_succ_r. Qed.

Lemma logged_ticks (msgs : list string) (n : nat) (w : World) :
  ticks n (logged msgs w) = logged msgs (ticks n w).
Proof. reflexivity. Qed.

(** *** The normaliser *)

(** The loop over the notes builds the list of formatted notes in order. *)
Lemma formatted_notes_loop (l : list Note) (acc : list string) :
  fold_left (fun acc note =>
               (acc ++ [(user_summary note ++ ": " ++ content note)%string])%list)
            l acc
  = (acc ++ map format_note l)%list.
Proof.
  revert acc. induction l as [|n l IH]; intros acc; cbn [fold_left map].
  - now rewrite app_nil_r.
  - rewrite IH, <- app_assoc. reflexivity.
Qed.

(** [formatted_notes[-1] if formatted_notes else 'NO NOTE']. *)
Lemma last_or_sentinel (l : list string) :
  match l with
  | [] => "NO NOTE"
  | _ :: _ => List.last l ""
  end = List.last l "NO NOTE".
Proof.
  destruct l as [|x l]; [reflexivity|].
  revert x. induction l as [|y l IH]; intros x; [reflexivity|].
  change (List.last (x :: y :: l) "") with (List.last (y :: l) "").
  change (List.last (x :: y :: l) "NO NOTE") with (List.last (y :: l) "NO NOTE").
  apply IH.
Qed.

(** The formatted incident of a raw incident whose timestamp parses: the
    warning, if any, is logged and the clock is read once. *)
Lemma format_incident_ok (env : Collaborators) (r : Incident) (d : datetime)
    (w : World) :
  parse_local env (replace_time (clock w (reads w)) 0 0 0 0) (created_at r)
  = Some d ->
  format_incident env r w =
  (Ok (mkFormattedIncident (service_summary (incident_service r)) (html_url r)
         (incident_urgency r) (resolve_description r) d
         (map format_note (incident_notes r))
         (List.last (map format_note (incident_notes r)) "NO NOTE")),
   logged (warning_of r) (tick w)).
Proof.
  intros Hparse. unfold format_incident, warning_of, resolve_description.
  rewrite formatted_notes_loop, last_or_sentinel. cbn [app].
  destruct (title r) as [t|]; [|destruct (summary r) as [s|];
    [|destruct (id_ r) as [i|]]];
    unfold bind, ret, logger_warning, datetime_now;
    cbn [stdout log clock reads]; rewrite Hparse;
    rewrite ?logged_nil; reflexivity.
Qed.

(** A timestamp that does not parse aborts the normaliser, after the
    warning and the reading of the clock. *)
Lemma format_incident_parse_error (env : Collaborators) (r : Incident) (w : World) :
  parse_local env (replace_time (clock w (reads w)) 0 0 0 0) (created_at r)
  = None ->
  format_incident env r w
  = (Raise ParserError, logged (warning_of r) (tick w)).
Proof.
  intros Hparse. unfold format_incident, warning_of, resolve_description.
  destruct (title r) as [t|]; [|destruct (summary r) as [s|];
    [|destruct (id_ r) as [i|]]];
    unfold bind, ret, raise, logger_warning, datetime_now;
    cbn [stdout log clock reads]; rewrite Hparse;
    rewrite ?logged_nil; reflexivity.
Qed.

Lemma get_formatted_incidents_loop (env : Collaborators) (raws : list Incident) :
  forall acc w,
  all_parse env (clock w) (reads w) raws ->
  exists fis,
    for_fold raws acc
      (fun formatted_incidents incident =>
         formatted_incident <- format_incident env incident ;;
         ret (formatted_incidents ++ [formatted_incident])%list) w
    = (Ok (acc ++ fis)%list,
       logged (flat_map warning_of raws) (ticks (List.length raws) w)) /\
    Forall2 (normalized env) raws fis /\
    map (fun f => Some (created_on f)) fis
    = map (fun kr =>
             parse_local env (replace_time (clock w (fst kr)) 0 0 0 0)
               (created_at (snd kr)))
        (combine (seq (reads w) (List.length raws)) raws).
Proof.
  induction raws as [|r raws IH]; intros acc w Hparse.
  - exists []. cbn. rewrite logged_nil, ticks_zero, app_nil_r.
    split; [reflexivity|]. split; [constructor | reflexivity].
  - destruct Hparse as [Hr Hrest]. unfold parses_at in Hr.
    destruct (parse_local env (replace_time (clock w (reads w)) 0 0 0 0)
                (created_at r)) as [d|] eqn:Hparse; [|congruence].
    cbn [for_fold flat_map List.length seq combine map fst snd].
    rewrite (bind_ok _ _ w (logged (warning_of r) (tick w))
               (acc ++ [mkFormattedIncident (service_summary (incident_service r))
                          (html_url r) (incident_urgency r) (resolve_description r) d
                          (map format_note (incident_notes r))
                          (List.last (map format_note (incident_notes r)) "NO NOTE")])%list).
    2:{ rewrite (bind_ok _ _ _ _ _ (format_incident_ok env r d w Hparse)).
        reflexivity. }
    destruct (IH (acc ++ [mkFormattedIncident (service_summary (incident_service r))
                          (html_url r) (incident_urgency r) (resolve_description r) d
                          (map format_note (incident_notes r))
                          (List.last (map format_note (incident_notes r)) "NO NOTE")])%list
                 (logged (warning_of r) (tick w)) Hrest)
      as (fis & Hrun & Hall & Hcreated).
    eexists (_ :: fis). rewrite Hrun, logged_ticks, logged_logged, ticks_tick.
    rewrite <- app_assoc. cbn [app map].
    split; [reflexivity|]. split.
    + constructor; [|exact Hall].
      unfold normalized. cbn. repeat split; try assumption.
      exists (clock w (reads w)). exact Hparse.
    + rewrite Hparse. f_equal. exact Hcreated.
Qed.

(** When every timestamp parses the normaliser returns one formatted
    incident per raw incident, in order, logs one warning per incident
    without description and reads the clock once per incident. *)
Lemma get_formatted_incidents_ok (env : Collaborators) (raws : list Incident)
    (w : World) :
  all_parse env (clock w) (reads w) raws ->
  exists fis,
    get_formatted_incidents env raws w
    = (Ok fis, logged (flat_map warning_of raws) (ticks (List.length raws) w)) /\
    Forall2 (normalized env) raws fis.
Proof.
  intros Hparse.
  destruct (get_formatted_incidents_loop env raws [] w Hparse)
    as (fis & Hrun & Hall & _).
  exists fis. split; [exact Hrun | exact Hall].
Qed.

(** A formatted note contains the separator between author and content. *)
Lemma format_note_has_separator (n : Note) :
  PyStr.contains ": " (format_note n) = true.
Proof. unfold format_note. apply contains_append. Qed.

Lemma normalized_last_note (env : Collaborators) (r : Incident)
    (f : FormattedIncident) :
  normalized env r f ->
  (incident_notes r = [] -> last_note f = "NO NOTE") /\
  (forall pre n, incident_notes r = (pre ++ [n])%list ->
                 last_note f = format_note n).
Proof.
  intros (_ & _ & _ & _ & _ & Hnotes & Hlast). rewrite Hlast, Hnotes. split.
  - intros ->. reflexivity.
  - intros pre n ->. rewrite map_app. cbn [map]. apply last_last.
Qed.

(** Incidents with a title, a summary or an identifier are formatted with a
    description. *)
Lemma normalized_has_description (env : Collaborators) (raws : list Incident)
    (fis : list FormattedIncident) :
  Forall2 (normalized env) raws fis ->
  Forall (fun r => resolve_description r <> None) raws ->
  Forall has_description fis.
Proof.
  induction 1 as [|r f raws fis Hrf _ IH]; intros Hdesc; [constructor|].
  inversion Hdesc as [|? ? Hr Hrest]; subst.
  constructor; [|now apply IH].
  destruct Hrf as (_ & _ & _ & Hd & _). unfold has_description. now rewrite Hd.
Qed.

(** *** The dictionary of groups *)

(** Appending under a key adds the key at the end when it is new. *)
Lemma dict_append_keys (d : pydict) (k : string) (v : FormattedIncident) :
  map fst (dict_append d k v) =
  if in_dec string_dec k (map fst d) then map fst d else (map fst d ++ [k])%list.
Proof.
  induction d as [|[k' l] d IH]; cbn [dict_append map fst].
  - reflexivity.
  - destruct (String.eqb_spec k' k) as [->|Hne].
    + cbn [map fst]. destruct (in_dec string_dec k (k :: map fst d)) as [_|Hn];
        [reflexivity | exfalso; apply Hn; now left].
    + cbn [map fst]. rewrite IH.
      destruct (in_dec string_dec k (map fst d)) as [Hin|Hnin];
        destruct (in_dec string_dec k (k' :: map fst d)) as [Hin'|Hnin'];
        try reflexivity.
      * exfalso. apply Hnin'. now right.
      * destruct Hin' as [Heq|Hin']; [congruence | contradiction].
Qed.

Lemma dict_append_NoDup (d : pydict) (k : string) (v : FormattedIncident) :
  NoDup (map fst d) -> NoDup (map fst (dict_append d k v)).
Proof.
  intros Hnd. rewrite dict_append_keys.
  destruct (in_dec string_dec k (map fst d)) as [Hin|Hnin]; [exact Hnd|].
  apply NoDup_app; [exact Hnd | repeat constructor; intros [] | ].
  intros x Hx [<-|[]]. contradiction.
Qed.

(** Appending under a key extends the list of that key only. *)
Lemma dict_get_append (d : pydict) (k k' : string) (v : FormattedIncident) :
  dict_get (dict_append d k v) k' =
  if (k =? k')%string then (dict_get d k' ++ [v])%list else dict_get d k'.
Proof.
  unfold dict_get. induction d as [|[k0 l] d IH]; cbn [dict_append find fst snd].
  - destruct (k =? k')%string; reflexivity.
  - destruct (String.eqb_spec k0 k) as [->|Hne]; cbn [find fst snd].
    + destruct (k =? k')%string; reflexivity.
    + destruct (String.eqb_spec k0 k') as [->|Hne'].
      * destruct (String.eqb_spec k k') as [->|_]; [congruence|reflexivity].
      * exact IH.
Qed.

Lemma dict_append_Permutation (d : pydict) (k : string) (v : FormattedIncident) :
  Permutation (List.concat (map snd (dict_append d k v))) (List.concat (map snd d) ++ [v]).
Proof.
  induction d as [|[k' l] d IH]; cbn [dict_append map snd List.concat].
  - reflexivity.
  - destruct (k' =? k)%string; cbn [map snd List.concat].
    + rewrite <- !app_assoc. apply Permutation_app_head, Permutation_app_comm.
    + rewrite <- app_assoc. apply Permutation_app_head, IH.
Qed.

(** With distinct keys an entry is what the lookup of its key returns. *)
Lemma dict_get_entry (d : pydict) (k : string) (g : list FormattedIncident) :
  NoDup (map fst d) -> In (k, g) d -> dict_get d k = g.
Proof.
  unfold dict_get. induction d as [|[k' l] d IH]; intros Hnd Hin; [destruct Hin|].
  cbn [find fst snd]. cbn [map fst] in Hnd. inversion Hnd as [|? ? Hnot Hnd']; subst.
  destruct Hin as [Heq|Hin].
  - injection Heq as -> ->. now rewrite String.eqb_refl.
  - destruct (String.eqb_spec k' k) as [->|Hne].
    + exfalso. apply Hnot. change k with (fst (k, g)). now apply in_map.
    + now apply IH.
Qed.

(** The loop that fills the dictionary, started from any dictionary with
    distinct keys and non-empty lists. *)
Lemma grouping_loop (incidents : list FormattedIncident) :
  forall d,
    NoDup (map fst d) ->
    (forall k g, In (k, g) d -> g <> []) ->
    let d' := fold_left (fun d i => dict_append d (desc_key i) i) incidents d in
    NoDup (map fst d') /\
    (forall k, dict_get d' k = (dict_get d k ++ filter (with_key k) incidents)%list) /\
    (forall k g, In (k, g) d' -> g <> []) /\
    (forall i, In i incidents -> In (desc_key i) (map fst d')) /\
    (forall k, In k (map fst d) -> In k (map fst d')) /\
    Permutation (List.concat (map snd d')) (List.concat (map snd d) ++ incidents).
Proof.
  induction incidents as [|i incidents IH]; intros d Hnd Hne; cbn [fold_left filter].
  - repeat split; try assumption.
    + intros k. now rewrite app_nil_r.
    + intros i [].
    + auto.
    + now rewrite app_nil_r.
  - assert (Hne' : forall k g, In (k, g) (dict_append d (desc_key i) i) -> g <> []).
    { clear IH Hnd. induction d as [|[k' l] d IHd]; cbn [dict_append]; intros k g Hin.
      - destruct Hin as [Heq|[]]. injection Heq as _ <-. discriminate.
      - destruct (k' =? desc_key i)%string.
        + destruct Hin as [Heq|Hin].
          * injection Heq as _ <-. intros Habs. now apply app_eq_nil in Habs as [_ ?].
          * apply (Hne k g). now right.
        + destruct Hin as [Heq|Hin].
          * injection Heq as <- <-. apply (Hne k' l). now left.
          * apply IHd with (k := k); [|exact Hin].
            intros k0 g0 H0. apply (Hne k0 g0). now right. }
    destruct (IH (dict_append d (desc_key i) i)
                (dict_append_NoDup d (desc_key i) i Hnd) Hne')
      as (Hnd' & Hget & Hnonempty & Hkeys & Hmono & Hperm).
    assert (Hstep : forall k, In k (map fst d) \/ k = desc_key i ->
                              In k (map fst (dict_append d (desc_key i) i))).
    { intros k Hk. rewrite dict_append_keys.
      destruct (in_dec string_dec (desc_key i) (map fst d)) as [Hin|Hnin].
      - destruct Hk as [Hk| ->]; assumption.
      - apply in_or_app. destruct Hk as [Hk| ->]; [now left | right; now left]. }
    repeat split; try assumption.
    + intros k. rewrite Hget, dict_get_append. unfold with_key at 2.
      destruct (desc_key i =? k)%string; [|reflexivity].
      now rewrite <- app_assoc.
    + intros j [<-|Hj]; [|now apply Hkeys].
      apply Hmono, Hstep. now right.
    + intros k Hk. apply Hmono, Hstep. now left.
    + rewrite Hperm, dict_append_Permutation, <- app_assoc. reflexivity.
Qed.

(** The groups: distinct keys, each group the incidents of its key in input
    order, every incident in the group of its key. *)
Lemma group_by_description_spec (incidents : list FormattedIncident) :
  NoDup (map fst (group_by_description incidents)) /\
  (forall k g, In (k, g) (group_by_description incidents) ->
               g = filter (with_key k) incidents /\ g <> []) /\
  (forall i, In i incidents ->
             In (desc_key i, filter (with_key (desc_key i)) incidents)
                (group_by_description incidents)) /\
  Permutation (List.concat (map snd (group_by_description incidents))) incidents.
Proof.
  destruct (grouping_loop incidents [] (NoDup_nil _) (fun k g H => match H with end))
    as (Hnd & Hget & Hne & Hkeys & _ & Hperm).
  fold (group_by_description incidents) in *.
  split; [exact Hnd|]. split; [|split; [|exact Hperm]].
  - intros k g Hin. split; [|now apply (Hne k)].
    rewrite <- (dict_get_entry _ _ _ Hnd Hin). apply Hget.
  - intros i Hi. apply Hkeys in Hi. apply in_map_iff in Hi as ([k g] & Hk & Hin).
    cbn [fst] in Hk. subst k.
    assert (Hg : g = filter (with_key (desc_key i)) incidents).
    { rewrite <- (dict_get_entry _ _ _ Hnd Hin). apply Hget. }
    now rewrite <- Hg.
Qed.

(** *** Rendering *)

Lemma print_bullet_run (i : FormattedIncident) (w : World) :
  print_bullet i w = (Ok tt, printed [bullet_text i] w).
Proof.
  unfold print_bullet, bullet_text, no_note_line.
  destruct (last_note i =? "NO NOTE")%string; reflexivity.
Qed.

Lemma print_bullets_run (l : list FormattedIncident) (w : World) :
  for_each l print_bullet w = (Ok tt, printed (map bullet_text l) w).
Proof.
  revert w. induction l as [|i l IH]; intros w; cbn [for_each map].
  - now rewrite printed_nil.
  - rewrite (bind_ok _ _ _ _ _ (print_bullet_run i w)), IH, printed_printed.
    reflexivity.
Qed.

Lemma print_groups_run (d : pydict) (w : World) :
  for_each d
    (fun '(desc, incidents) =>
       print (PyStr.nl ++ "**" ++ desc ++ "** [Paged "
              ++ PyStr.str_int (Z.of_nat (List.length incidents)) ++ " times]:") ;;;
       for_each incidents print_bullet) w
  = (Ok tt, printed (flat_map group_lines d) w).
Proof.
  revert w. induction d as [|[k g] d IH]; intros w; cbn [for_each flat_map].
  - now rewrite printed_nil.
  - erewrite bind_ok.
    2:{ erewrite bind_ok; [apply print_bullets_run | apply print_run]. }
    rewrite IH, !printed_printed. reflexivity.
Qed.

Lemma grouping_run (incidents : list FormattedIncident) :
  Forall has_description incidents ->
  forall d w,
    for_fold incidents d
      (fun d incident =>
         k <- get_description incident ;;
         ret (dict_append d k incident)) w
    = (Ok (fold_left (fun d i => dict_append d (desc_key i) i) incidents d), w).
Proof.
  induction 1 as [|i incidents Hi _ IH]; intros d w; cbn [for_fold fold_left].
  - reflexivity.
  - unfold has_description in Hi.
    erewrite bind_ok; [apply IH|].
    unfold get_description, desc_key, bind, ret.
    destruct (description i); [reflexivity | congruence].
Qed.

(** The grouping loop raises at the first incident without description. *)
Lemma grouping_raises (incidents : list FormattedIncident) :
  ~ Forall has_description incidents ->
  forall d w,
    for_fold incidents d
      (fun d incident =>
         k <- get_description incident ;;
         ret (dict_append d k incident)) w
    = (Raise (AttributeError "description"), w).
Proof.
  induction incidents as [|i incidents IH]; intros Hmissing d w.
  - exfalso. apply Hmissing. constructor.
  - cbn [for_fold]. destruct (description i) as [s|] eqn:Hdesc.
    + erewrite bind_ok.
      2:{ unfold get_description, bind, ret. rewrite Hdesc. reflexivity. }
      apply IH. intros Hall. apply Hmissing. constructor; [|exact Hall].
      unfold has_description. congruence.
    + apply bind_raise. unfold get_description, bind, raise. now rewrite Hdesc.
Qed.

(** When every incident has a description, the pages are printed group by
    group. *)
Lemma print_pages_by_description_run (incidents : list FormattedIncident)
    (w : World) :
  Forall has_description incidents ->
  print_pages_by_description incidents w
  = (Ok tt, printed (pages_lines incidents) w).
Proof.
  intros Hall. unfold print_pages_by_description.
  rewrite (bind_ok _ _ _ _ _ (grouping_run incidents Hall [] w)).
  apply print_groups_run.
Qed.

(** An incident without description makes the grouping raise before anything
    is printed. *)
Lemma print_pages_by_description_raises (incidents : list FormattedIncident)
    (w : World) :
  ~ Forall has_description incidents ->
  print_pages_by_description incidents w
  = (Raise (AttributeError "description"), w).
Proof.
  intros Hmissing. unfold print_pages_by_description.
  apply bind_raise, grouping_raises, Hmissing.
Qed.

(** The fetch asks for the incidents from the window start to eight days
    later. *)
Lemma recent_incidents_for_services_run (env : Collaborators)
    (services : list Service) (w : World) :
  clock_ok (clock w (reads w)) ->
  exists start e,
    get_oncall_start w = (Ok start, tick w) /\
    add_days start 8 = Some e /\
    recent_incidents_for_services env services w
    = (Ok (incidents_list env (map service_id services) start e), tick w).
Proof.
  intros (Hvalid & Hlow & Hhigh).
  destruct (get_oncall_start_run w Hvalid Hlow)
    as (start & Hstart & _ & _ & _ & _ & Hord).
  assert (Hrange : 0 < toordinal start + 8 <= MAXORDINAL).
  { rewrite Hord. unfold weekday.
    destruct (Z.eqb_spec ((toordinal (clock w (reads w)) + 6) mod 7) 2);
      Z.div_mod_to_equations; lia. }
  destruct (add_days_in_range start 8 Hrange) as [e He].
  exists start, e. split; [exact Hstart|]. split; [exact He|].
  unfold recent_incidents_for_services.
  rewrite (bind_ok _ _ _ _ _ Hstart). rewrite He. reflexivity.
Qed.

(** The statistics are headed by the window start and the day seven days
    later. *)
Lemma print_stats_run (high low : list FormattedIncident) (w : World)
    (start e : datetime) :
  get_oncall_start w = (Ok start, tick w) ->
  add_days start 7 = Some e ->
  print_stats high low w
  = (Ok tt, printed [stats_lines high low start e] (tick w)).
Proof.
  intros Hstart He.
  unfold print_stats, stats_lines.
  destruct (get_breakdown high) as [[[h_a h_na] h_t] h_nt].
  destruct (get_breakdown low) as [[[l_a l_na] l_t] l_nt].
  rewrite (bind_ok _ _ _ _ _ Hstart). rewrite He. reflexivity.
Qed.

(** The window of the statistics is computed without raising for an
    acceptable clock reading. *)
Lemma stats_window_run (w : World) :
  clock_ok (clock w (reads w)) ->
  exists start e,
    get_oncall_start w = (Ok start, tick w) /\ add_days start 7 = Some e.
Proof.
  intros (Hvalid & Hlow & Hhigh).
  destruct (get_oncall_start_run w Hvalid Hlow)
    as (start & Hstart & _ & _ & _ & _ & Hord).
  assert (Hrange : 0 < toordinal start + 7 <= MAXORDINAL).
  { rewrite Hord. unfold weekday.
    destruct (Z.eqb_spec ((toordinal (clock w (reads w)) + 6) mod 7) 2);
      Z.div_mod_to_equations; lia. }
  destruct (add_days_in_range start 7 Hrange) as [e He].
  exists start, e. split; assumption.
Qed.

(** No line of the pages is the header of the low-urgency section. *)
Lemma low_header_not_in_pages (d : pydict) :
  ~ In LOW_HEADER (flat_map group_lines d).
Proof.
  intros Hin. apply in_flat_map in Hin as ([k g] & _ & Hin).
  unfold group_lines in Hin. cbn [fst snd] in Hin.
  destruct Hin as [Heq|Hin].
  - unfold group_header, LOW_HEADER in Heq. cbn in Heq. discriminate.
  - apply in_map_iff in Hin as (i & Heq & _).
    unfold bullet_text, no_note_line, LOW_HEADER in Heq.
    destruct (last_note i =? "NO NOTE")%string; cbn in Heq; discriminate.
Qed.

Lemma low_header_not_stats (high low : list FormattedIncident) (s e : datetime) :
  stats_lines high low s e <> LOW_HEADER.
Proof.
  unfold stats_lines.
  destruct (get_breakdown high) as [[[h_a h_na] h_t] h_nt].
  destruct (get_breakdown low) as [[[l_a l_na] l_t] l_nt].
  unfold stats_text, LOW_HEADER. cbn [PyStr.nl append]. discriminate.
Qed.

Lemma Forall_filter {A} (P : A -> Prop) (f : A -> bool) (l : list A) :
  Forall P l -> Forall P (filter f l).
Proof.
  intros H. apply Forall_forall. intros x Hx. apply filter_In in Hx as [Hx _].
  revert x Hx. now apply Forall_forall.
Qed.

Lemma filter_partition_length {A} (f : A -> bool) (l : list A) :
  List.length l
  = (List.length (filter f l) + List.length (filter (fun x => negb (f x)) l))%nat.
Proof.
  induction l as [|x l IH]; [reflexivity|].
  cbn [filter]. destruct (f x); cbn [negb List.length]; lia.
Qed.

(** No warning is logged for incidents with a title, a summary or an
    identifier. *)
Lemma no_warnings (raws : list Incident) :
  Forall (fun r => resolve_description r <> None) raws ->
  flat_map warning_of raws = [].
Proof.
  induction 1 as [|r raws Hr _ IH]; [reflexivity|].
  cbn [flat_map]. rewrite IH. unfold warning_of.
  destruct (resolve_description r); [reflexivity | congruence].
Qed.

(** The run of [print_all_incidents] on fetched incidents whose timestamps
    parse and which all have a description: the clock is read once by the
    fetch, once per incident by the parser, and once by [print_stats]. *)
Lemma print_all_incidents_run (env : Collaborators) (raws : list Incident)
    (w : World) :
  recent_incidents_for_services env (services_of env) w = (Ok raws, tick w) ->
  all_parse env (clock w) (S (reads w)) raws ->
  Forall (fun r => resolve_description r <> None) raws ->
  clock_ok (clock w (S (List.length raws + reads w))) ->
  exists all start e,
    get_formatted_incidents env raws (tick w)
    = (Ok all, ticks (S (List.length raws)) w) /\
    Forall2 (normalized env) raws all /\
    Forall has_description all /\
    get_oncall_start (ticks (S (List.length raws)) w)
    = (Ok start, ticks (S (S (List.length raws))) w) /\
    add_days start 7 = Some e /\
    forall include_low : bool,
      print_all_incidents env include_low w
      = (Ok tt,
         printed
           (HIGH_HEADER
            :: pages_lines (filter is_high_urgency all)
            ++ (if include_low
                then LOW_HEADER
                     :: pages_lines
                          (filter (fun i => negb (is_high_urgency i)) all)
                else [])
            ++ [stats_lines (filter is_high_urgency all)
                  (filter (fun i => negb (is_high_urgency i)) all) start e;
                total_line all])%list
           (ticks (S (S (List.length raws))) w)).
Proof.
  intros Hfetch Hparse Hdesc Hclock.
  destruct (get_formatted_incidents_ok env raws (tick w) Hparse)
    as (all & Hnorm & Hall).
  rewrite (no_warnings raws Hdesc), logged_nil, ticks_tick in Hnorm.
  pose proof (normalized_has_description env raws all Hall Hdesc) as Hhas.
  set (high := filter is_high_urgency all).
  set (low := filter (fun i => negb (is_high_urgency i)) all).
  assert (Hhigh : Forall has_description high) by now apply Forall_filter.
  assert (Hlow : Forall has_description low) by now apply Forall_filter.
  set (w2 := ticks (S (List.length raws)) w) in *.
  destruct (stats_window_run w2 Hclock) as (start & e & Hstart & He).
  assert (Hstats : forall lines,
             print_stats high low (printed lines w2)
             = (Ok tt, printed [stats_lines high low start e]
                         (tick (printed lines w2)))).
  { intros lines. apply print_stats_run; [|exact He].
    apply (get_oncall_start_same_reading w2); [reflexivity | exact Hstart]. }
  exists all, start, e.
  split; [exact Hnorm|]. split; [exact Hall|]. split; [exact Hhas|].
  split; [exact Hstart|]. split; [exact He|].
  intros include_low.
  unfold print_all_incidents. fold (services_of env).
  rewrite (bind_ok _ _ _ _ _ Hfetch).
  rewrite (bind_ok _ _ _ _ _ Hnorm).
  fold high. fold low. fold HIGH_HEADER. fold LOW_HEADER.
  rewrite (bind_ok _ _ _ _ _ (print_run HIGH_HEADER w2)).
  rewrite (bind_ok _ _ _ _ _ (print_pages_by_description_run high _ Hhigh)).
  rewrite printed_printed.
  destruct include_low.
  - erewrite bind_ok.
    2:{ erewrite bind_ok; [|apply print_run].
        rewrite (print_pages_by_description_run low _ Hlow).
        rewrite !printed_printed. reflexivity. }
    rewrite (bind_ok _ _ _ _ _ (Hstats _)).
    unfold print, printed, tick, w2, ticks. cbn [stdout log clock reads].
    f_equal. f_equal. rewrite <- !app_assoc. reflexivity.
  - erewrite bind_ok; [|reflexivity].
    rewrite (bind_ok _ _ _ _ _ (Hstats _)).
    unfold print, printed, tick, w2, ticks. cbn [stdout log clock reads].
    f_equal. f_equal. rewrite <- !app_assoc. reflexivity.
Qed.

(** What normalisation fixes about the bullet of an incident. *)
Lemma normalized_bullet (env : Collaborators) (r : Incident)
    (f : FormattedIncident) :
  normalized env r f ->
  Forall (fun note => PyStr.contains ": " note = true) (notes f) /\
  Forall (fun note => note <> "NO NOTE") (notes f) /\
  (last_note f = "NO NOTE" <-> incident_notes r = []) /\
  url f = html_url r /\
  (bullet_text f = "- [alarm paged](" ++ html_url r ++ ") - no note"
   <-> incident_notes r = []) /\
  (forall pre n,
      incident_notes r = (pre ++ [n])%list ->
      bullet_text f
      = "- [alarm paged](" ++ html_url r ++ ") - "
        ++ user_summary n ++ ": " ++ content n).
Proof.
  intros Hnorm.
  destruct (normalized_last_note env r f Hnorm) as [Hempty Hnonempty].
  destruct Hnorm as (_ & Hurl & _ & _ & _ & Hnotes & _).
  assert (Hsep : Forall (fun note => PyStr.contains ": " note = true) (notes f)).
  { rewrite Hnotes. apply Forall_forall. intros x Hx.
    apply in_map_iff in Hx as (n & <- & _). apply format_note_has_separator. }
  assert (Hlast : last_note f = "NO NOTE" <-> incident_notes r = []).
  { split; [|exact Hempty]. intros Hsentinel.
    destruct (incident_notes r) as [|n0 l] eqn:Hraw; [reflexivity|exfalso].
    destruct (exists_last (l := n0 :: l) ltac:(discriminate)) as (pre & n & Heq).
    rewrite (Hnonempty pre n Heq) in Hsentinel.
    pose proof (format_note_has_separator n) as Hc.
    rewrite Hsentinel in Hc. discriminate. }
  assert (Hnoted : forall pre n,
             incident_notes r = (pre ++ [n])%list ->
             bullet_text f
             = "- [alarm paged](" ++ html_url r ++ ") - "
               ++ user_summary n ++ ": " ++ content n).
  { intros pre n Heq. unfold bullet_text.
    destruct (String.eqb_spec (last_note f) "NO NOTE") as [Hs|_].
    - apply Hlast in Hs. rewrite Hs in Heq. now destruct pre.
    - rewrite (Hnonempty pre n Heq), Hurl. reflexivity. }
  split; [exact Hsep|]. split.
  { eapply Forall_impl; [|exact Hsep]. cbv beta. intros x Hx ->. discriminate. }
  split; [exact Hlast|]. split; [exact Hurl|]. split; [|exact Hnoted].
  split.
  - intros Hline.
    destruct (incident_notes r) as [|n0 l] eqn:Hraw; [reflexivity|exfalso].
    destruct (exists_last (l := n0 :: l) ltac:(discriminate)) as (pre & n & Heq).
    rewrite (Hnoted pre n Heq) in Hline.
    do 2 apply append_inj_l in Hline.
    apply (append_inj_l ") - " _ "no note") in Hline.
    pose proof (format_note_has_separator n) as Hc.
    unfold format_note in Hc. rewrite Hline in Hc. discriminate.
  - intros Hraw. apply Hlast in Hraw. unfold bullet_text, no_note_line.
    rewrite Hraw, Hurl. reflexivity.
Qed.

(* ===================================================================== *)
(** ** The properties of the report *)
(* ===================================================================== *)

Ltac by_evaluation := vm_compute; repeat split; (discriminate || reflexivity).

Ltac sample_parses :=
  cbn [all_parse]; unfold parses_at; cbn; repeat split; discriminate.

(** C1: for every clock reading that is a valid date after the first three
    days of year 1, [get_oncall_start] returns, and what it returns is a
    Wednesday at 12:00:00.000: seven days before today when today is a
    Wednesday, otherwise the last Wednesday before today (no Wednesday
    before today is later).  For Wednesday 2024-01-10, whatever the time of
    day, it is 2024-01-03 12:00:00, and for Friday 2024-01-12 it is
    2024-01-10 12:00:00. *)
Theorem get_oncall_start_wednesday_noon (w : World) (now : datetime) :
  clock w (reads w) = now ->
  valid now ->
  4 <= toordinal now ->
  exists start,
    get_oncall_start w = (Ok start, tick w) /\
    weekday start = 2 /\
    hour start = 12 /\ minute start = 0 /\ second start = 0 /\
    microsecond start = 0 /\
    (weekday now = 2 -> toordinal start = toordinal now - 7) /\
    (weekday now <> 2 -> toordinal now - 7 < toordinal start < toordinal now) /\
    (forall d, weekday d = 2 -> toordinal d < toordinal now ->
               toordinal d <= toordinal start) /\
    ((year now, month now, day now) = (2024, 1, 10) ->
     start = mkDatetime 2024 1 3 12 0 0 0) /\
    ((year now, month now, day now) = (2024, 1, 12) ->
     start = mkDatetime 2024 1 10 12 0 0 0).
Proof.
  intros Hnow Hvalid Hlow. rewrite <- Hnow in Hvalid, Hlow.
  destruct (get_oncall_start_run w Hvalid Hlow)
    as (start & Hstart & Hh & Hmi & Hs & Hus & Hord).
  rewrite Hnow in Hord, Hvalid, Hlow.
  assert (Hwd : 0 <= weekday now < 7) by (apply Z.mod_pos_bound; lia).
  exists start. split; [exact Hstart|].
  assert (Hws : weekday start = 2).
  { unfold weekday in *. rewrite Hord.
    destruct (Z.eqb_spec ((toordinal now + 6) mod 7) 2);
      Z.div_mod_to_equations; lia. }
  do 5 (split; [assumption|]).
  repeat apply conj.
  - intros Hw. rewrite Hord. apply Z.eqb_eq in Hw. rewrite Hw. lia.
  - intros Hnw. rewrite Hord. apply Z.eqb_neq in Hnw. rewrite Hnw.
    unfold weekday in *. Z.div_mod_to_equations. lia.
  - intros d Hd Hlt. rewrite Hord. unfold weekday in *.
    destruct (Z.eqb_spec ((toordinal now + 6) mod 7) 2);
      Z.div_mod_to_equations; lia.
  - intros Hdate. injection Hdate as Hy Hm Hd.
    assert (Hc : get_oncall_start w = (Ok (mkDatetime 2024 1 3 12 0 0 0), tick w)).
    { apply get_oncall_start_eval. rewrite Hnow. unfold replace_time.
      rewrite Hy, Hm, Hd. reflexivity. }
    congruence.
  - intros Hdate. injection Hdate as Hy Hm Hd.
    assert (Hc : get_oncall_start w = (Ok (mkDatetime 2024 1 10 12 0 0 0), tick w)).
    { apply get_oncall_start_eval. rewrite Hnow. unfold replace_time.
      rewrite Hy, Hm, Hd. reflexivity. }
    congruence.
Qed.

Lemma get_oncall_start_wednesday_noon_witness :
  valid wednesday_morning /\
  4 <= toordinal wednesday_morning /\
  exists start,
    get_oncall_start sample_world = (Ok start, tick sample_world) /\
    weekday start = 2.
Proof.
  split; [by_evaluation|]. split; [by_evaluation|].
  destruct (get_oncall_start_wednesday_noon sample_world wednesday_morning)
    as (start & Hrun & Hwd & _); [reflexivity | by_evaluation | by_evaluation |].
  exists start. split; assumption.
Defined.

(** C2: [is_high_urgency] is the negation of (the urgency is low, or [-low-]
    occurs in the service name); urgency low with service [checkout-prod] is
    low, and urgency high with service [checkout-low-priority] is low as
    well. *)
Theorem is_high_urgency_negation (i : FormattedIncident) :
  is_high_urgency i = negb ((urgency i =? "low")%string
                            || PyStr.contains "-low-" (service i)) /\
  (is_high_urgency i = true <->
   ~ (urgency i = "low" \/ exists pre post, service i = pre ++ "-low-" ++ post)) /\
  (is_high_urgency i = false <->
   (urgency i = "low" \/ exists pre post, service i = pre ++ "-low-" ++ post)) /\
  is_high_urgency
    (mkFormattedIncident "checkout-prod" (url i) "low" (description i)
       (created_on i) (notes i) (last_note i)) = false /\
  is_high_urgency
    (mkFormattedIncident "checkout-low-priority" (url i) "high" (description i)
       (created_on i) (notes i) (last_note i)) = false.
Proof.
  assert (Hfalse : is_high_urgency i = false <->
            (urgency i = "low" \/ exists pre post, service i = pre ++ "-low-" ++ post)).
  { unfold is_high_urgency. rewrite negb_false_iff, orb_true_iff.
    rewrite String.eqb_eq, contains_iff. reflexivity. }
  split; [reflexivity|]. split; [|split; [exact Hfalse|split; reflexivity]].
  rewrite <- Hfalse. destruct (is_high_urgency i); split; congruence.
Qed.

(** C3: [get_breakdown] counts every incident under the first of [#a],
    [#na], [#t] that occurs as a substring of one of its notes, and as not
    tagged when none occurs; the test knows nothing of case folding or word
    boundaries ([#another] counts as [#a], [#A] does not), and notes with
    both [#a] and [#na] count as actionable. *)
Theorem get_breakdown_tag_priority (l : list FormattedIncident) (i : FormattedIncident) :
  get_breakdown l =
    (count_disposition Actionable l, count_disposition NonActionable l,
     count_disposition Transient l, count_disposition NotTagged l) /\
  get_breakdown [i] =
    (if has_tag "#a" i then (1, 0, 0, 0)
     else if has_tag "#na" i then (0, 1, 0, 0)
     else if has_tag "#t" i then (0, 0, 1, 0)
     else (0, 0, 0, 1)) /\
  (is_actionable i = has_tag "#a" i /\
   is_non_actionable i = has_tag "#na" i /\
   is_transient i = has_tag "#t" i) /\
  (forall tag, has_tag tag i = true <->
     exists note pre post, In note (notes i) /\ note = pre ++ tag ++ post) /\
  get_breakdown [incident_with_notes ["ann: see #another page"]] = (1, 0, 0, 0) /\
  get_breakdown [incident_with_notes ["ann: #na"; "bob: #a after all"]] = (1, 0, 0, 0) /\
  get_breakdown [incident_with_notes ["ann: #na, later #t"]] = (0, 1, 0, 0) /\
  get_breakdown [incident_with_notes ["ann: #t"]] = (0, 0, 1, 0) /\
  get_breakdown [incident_with_notes ["ann: #A #NA #T"]] = (0, 0, 0, 1) /\
  get_breakdown [incident_with_notes ["ann: #"; "a"]] = (0, 0, 0, 1) /\
  get_breakdown [incident_with_notes []] = (0, 0, 0, 1).
Proof.
  split; [apply get_breakdown_counts|].
  split.
  { change (get_breakdown [i]) with (breakdown_step (0, 0, 0, 0) i).
    rewrite breakdown_step_disposition. unfold disposition.
    destruct (has_tag "#a" i); [|destruct (has_tag "#na" i);
      [|destruct (has_tag "#t" i)]]; reflexivity. }
  split; [repeat split|].
  split; [intros tag; apply has_tag_iff|].
  repeat split; reflexivity.
Qed.

(** C4: the four counts of [get_breakdown] are non-negative and add up to
    the number of incidents. *)
Theorem get_breakdown_sums_to_len (l : list FormattedIncident) :
  let '(actionable, non_actionable, transient, not_tagged) := get_breakdown l in
  0 <= actionable /\ 0 <= non_actionable /\ 0 <= transient /\ 0 <= not_tagged /\
  actionable + non_actionable + transient + not_tagged = Z.of_nat (List.length l).
Proof.
  rewrite get_breakdown_counts.
  pose proof (count_disposition_total l) as Hsum.
  unfold count_disposition in *. lia.
Qed.

(** C5: the run on an incident with neither title, summary nor identifier.
    The normaliser logs the warning and goes on, but the formatted incident
    has no description at all (not an empty one), so grouping raises
    [AttributeError] and the report stops after the header of the high-
    urgency section. *)
Theorem missing_description_is_fatal :
  exists f : FormattedIncident,
    get_formatted_incidents (sample_env [incident_without_description])
      [incident_without_description] sample_world
    = (Ok [f], logged [missing_description_warning] (tick sample_world)) /\
    description f = None /\
    description f <> Some "" /\
    print_pages_by_description [f] sample_world
    = (Raise (AttributeError "description"), sample_world) /\
    forall include_low,
      print_all_incidents (sample_env [incident_without_description])
        include_low sample_world
      = (Raise (AttributeError "description"),
         mkWorld [HIGH_HEADER] [missing_description_warning]
           (clock sample_world) 2).
Proof.
  eexists. split; [reflexivity|].
  split; [reflexivity|]. split; [discriminate|]. split; [reflexivity|].
  intros []; reflexivity.
Qed.

(** C6: every note is formatted as author, colon, blank, content, in the
    order of the source; [last_note] is the last formatted note, or [NO
    NOTE] when there is none; notes [x: hi], [y: bye] give [y: bye]. *)
Theorem last_note_is_last_formatted_note (env : Collaborators)
    (raws : list Incident) (w : World) :
  all_parse env (clock w) (reads w) raws ->
  exists fis w',
    get_formatted_incidents env raws w = (Ok fis, w') /\
    Forall2
      (fun r f =>
         notes f = map (fun n => user_summary n ++ ": " ++ content n)
                       (incident_notes r) /\
         (notes f = [] -> last_note f = "NO NOTE") /\
         (forall pre x, notes f = (pre ++ [x])%list -> last_note f = x) /\
         (notes f = ["x: hi"; "y: bye"] -> last_note f = "y: bye"))
      raws fis.
Proof.
  intros Hparse.
  destruct (get_formatted_incidents_ok env raws w Hparse) as (fis & Hrun & Hall).
  exists fis. eexists. split; [exact Hrun|].
  eapply Forall2_impl; [|exact Hall].
  intros r f (_ & _ & _ & _ & _ & Hnotes & Hlast).
  split; [exact Hnotes|]. rewrite Hlast. repeat split.
  - intros ->. reflexivity.
  - intros pre x ->. apply last_last.
  - intros ->. reflexivity.
Qed.

Lemma last_note_is_last_formatted_note_witness :
  all_parse (sample_env [sample_incident]) (clock sample_world)
    (reads sample_world) [sample_incident] /\
  exists fis w',
    get_formatted_incidents (sample_env [sample_incident]) [sample_incident]
      sample_world = (Ok fis, w') /\
    map last_note fis = ["y: bye"].
Proof.
  assert (Hparse : all_parse (sample_env [sample_incident]) (clock sample_world)
                     (reads sample_world) [sample_incident])
    by sample_parses.
  split; [exact Hparse|].
  destruct (last_note_is_last_formatted_note (sample_env [sample_incident])
              [sample_incident] sample_world Hparse)
    as (fis & w' & Hrun & Hall).
  exists fis, w'. split; [exact Hrun|].
  inversion Hall as [|r f rs fs Hf Hrest]; subst.
  inversion Hrest; subst.
  destruct Hf as (Hnotes & _ & _ & Hexample).
  cbn. rewrite (Hexample Hnotes). reflexivity.
Defined.

(** C7: the two ends of the window on Wednesday 2024-01-10.  The fetch is
    restricted to 2024-01-03 12:00 .. 2024-01-11 12:00 (start + 8 days),
    while the statistics table is headed by 01/03 12:00 and 01/10 12:00
    (start + 7 days). *)
Theorem stats_header_end_is_seven_days (env : Collaborators)
    (services : list Service) (high low : list FormattedIncident) :
  recent_incidents_for_services env services sample_world
  = (Ok (incidents_list env (map service_id services)
           (mkDatetime 2024 1 3 12 0 0 0) (mkDatetime 2024 1 11 12 0 0 0)),
     tick sample_world) /\
  print_stats high low sample_world
  = (Ok tt,
     printed [stats_lines high low (mkDatetime 2024 1 3 12 0 0 0)
                (mkDatetime 2024 1 10 12 0 0 0)] (tick sample_world)) /\
  add_days (mkDatetime 2024 1 3 12 0 0 0) 8 = Some (mkDatetime 2024 1 11 12 0 0 0) /\
  add_days (mkDatetime 2024 1 3 12 0 0 0) 7 = Some (mkDatetime 2024 1 10 12 0 0 0) /\
  strftime_md_HM (mkDatetime 2024 1 11 12 0 0 0) = "01/11 12:00" /\
  strftime_md_HM (mkDatetime 2024 1 10 12 0 0 0) = "01/10 12:00" /\
  stats_lines [] [] (mkDatetime 2024 1 3 12 0 0 0) (mkDatetime 2024 1 10 12 0 0 0)
  = stats_text "01/03 12:00" "01/10 12:00" 0 0 0 0 0 0 0 0 0 0.
Proof.
  split; [reflexivity|]. split.
  { apply print_stats_run; reflexivity. }
  repeat split; reflexivity.
Qed.

(** C8: the run on two fetched incidents, one of high urgency with a title
    and one of low urgency with neither title, summary nor identifier.
    Without [include_low] the report is the high-urgency section, the
    statistics table and the total.  With [include_low] the run raises
    [AttributeError] right after the header of the low-urgency section:
    neither the statistics table nor the total is printed. *)
Theorem low_section_failure_hides_statistics :
  print_all_incidents
    (sample_env [sample_incident; low_incident_without_description])
    false sample_world
  = (Ok tt,
     mkWorld
       [PyStr.nl ++ "########## High Urgency Pages ##########";
        PyStr.nl ++ "**DB CPU high** [Paged 1 times]:";
        "- [alarm paged](https://pd/incidents/2) - y: bye";
        stats_text "01/03 12:00" "01/10 12:00" 0 0 0 0 0 0 1 1 1 1;
        "Total Pages: 2"]
       ["action=get_description status=not_found incident=<Incident 4>"]
       (clock sample_world) 4) /\
  print_all_incidents
    (sample_env [sample_incident; low_incident_without_description])
    true sample_world
  = (Raise (AttributeError "description"),
     mkWorld
       [PyStr.nl ++ "########## High Urgency Pages ##########";
        PyStr.nl ++ "**DB CPU high** [Paged 1 times]:";
        "- [alarm paged](https://pd/incidents/2) - y: bye";
        PyStr.nl ++ "########## Low Urgency Pages ##########"]
       ["action=get_description status=not_found incident=<Incident 4>"]
       (clock sample_world) 3).
Proof. split; reflexivity. Qed.



(** C10: every formatted note contains colon-blank and so differs from [NO
    NOTE], and [last_note] is [NO NOTE] exactly for an incident without
    notes.  In the rendered report (when the fetch returns, the timestamps
    parse, the incidents have a description and the clock reading of the
    statistics is acceptable) each section is, group by group, a header
    followed by one bullet for each incident of the group, the groups of a
    section hold every incident of its urgency exactly once, and the bullet
    of an incident is the [no note] line with its own URL exactly when the
    incident has no notes; otherwise it ends with the last note. *)
Theorem no_note_line_iff_zero_notes (env : Collaborators)
    (raws : list Incident) (w : World) :
  recent_incidents_for_services env (services_of env) w = (Ok raws, tick w) ->
  all_parse env (clock w) (S (reads w)) raws ->
  Forall (fun r => resolve_description r <> None) raws ->
  clock_ok (clock w (S (List.length raws + reads w))) ->
  exists (fis : list FormattedIncident)
         (groups_high groups_low : list (string * list FormattedIncident))
         (stats total : string) (w1 : World),
    let section :=
      flat_map
        (fun g : string * list FormattedIncident =>
           (PyStr.nl ++ "**" ++ fst g ++ "** [Paged "
            ++ PyStr.str_int (Z.of_nat (List.length (snd g))) ++ " times]:")
           :: map bullet_text (snd g)) in
    get_formatted_incidents env raws (tick w) = (Ok fis, w1) /\
    Forall2
      (fun r f =>
         Forall (fun note => PyStr.contains ": " note = true) (notes f) /\
         Forall (fun note => note <> "NO NOTE") (notes f) /\
         (last_note f = "NO NOTE" <-> incident_notes r = []) /\
         url f = html_url r /\
         (bullet_text f = "- [alarm paged](" ++ html_url r ++ ") - no note"
          <-> incident_notes r = []) /\
         (forall pre n,
             incident_notes r = (pre ++ [n])%list ->
             bullet_text f
             = "- [alarm paged](" ++ html_url r ++ ") - "
               ++ user_summary n ++ ": " ++ content n))
      raws fis /\
    Permutation (List.concat (map snd groups_high))
      (filter is_high_urgency fis) /\
    Permutation (List.concat (map snd groups_low))
      (filter (fun i => negb (is_high_urgency i)) fis) /\
    print_pages_by_description (filter is_high_urgency fis) w1
    = (Ok tt, printed (section groups_high) w1) /\
    print_pages_by_description
      (filter (fun i => negb (is_high_urgency i)) fis) w1
    = (Ok tt, printed (section groups_low) w1) /\
    forall include_low : bool,
    exists w2,
      print_all_incidents env include_low w = (Ok tt, w2) /\
      stdout w2
      = (stdout w
         ++ HIGH_HEADER :: section groups_high
         ++ (if include_low then LOW_HEADER :: section groups_low else [])
         ++ [stats; total])%list.
Proof.
  intros Hfetch Hparse Hdesc Hclock.
  destruct (print_all_incidents_run env raws w Hfetch Hparse Hdesc Hclock)
    as (fis & start & e & Hnorm & Hall & Hhas & _ & _ & Hrun).
  set (high := filter is_high_urgency fis) in *.
  set (low := filter (fun i => negb (is_high_urgency i)) fis) in *.
  exists fis, (group_by_description high), (group_by_description low),
    (stats_lines high low start e), (total_line fis),
    (ticks (S (List.length raws)) w).
  cbv zeta.
  assert (Hsection : forall l,
             flat_map
               (fun g : string * list FormattedIncident =>
                  (PyStr.nl ++ "**" ++ fst g ++ "** [Paged "
                   ++ PyStr.str_int (Z.of_nat (List.length (snd g)))
                   ++ " times]:")
                  :: map bullet_text (snd g)) (group_by_description l)
             = pages_lines l).
  { intros l. reflexivity. }
  rewrite !Hsection.
  split; [exact Hnorm|]. split.
  { eapply Forall2_impl; [|exact Hall]. intros r f. apply normalized_bullet. }
  split; [apply group_by_description_spec|].
  split; [apply group_by_description_spec|].
  split; [apply print_pages_by_description_run; now apply Forall_filter|].
  split; [apply print_pages_by_description_run; now apply Forall_filter|].
  intros include_low. eexists. split; [apply Hrun|]. reflexivity.
Qed.

Lemma no_note_line_iff_zero_notes_witness :
  recent_incidents_for_services
    (sample_env [sample_incident; untagged_incident])
    (services_of (sample_env [sample_incident; untagged_incident]))
    sample_world
  = (Ok [sample_incident; untagged_incident], tick sample_world) /\
  all_parse (sample_env [sample_incident; untagged_incident])
    (clock sample_world) (S (reads sample_world))
    [sample_incident; untagged_incident] /\
  Forall (fun r => resolve_description r <> None)
    [sample_incident; untagged_incident] /\
  clock_ok (clock sample_world
              (S (List.length [sample_incident; untagged_incident]
                  + reads sample_world))) /\
  exists fis w1,
    get_formatted_incidents (sample_env [sample_incident; untagged_incident])
      [sample_incident; untagged_incident] (tick sample_world) = (Ok fis, w1) /\
    map bullet_text fis
    = ["- [alarm paged](https://pd/incidents/2) - y: bye";
       "- [alarm paged](https://pd/incidents/3) - no note"].
Proof.
  assert (Hparse : all_parse (sample_env [sample_incident; untagged_incident])
                     (clock sample_world) (S (reads sample_world))
                     [sample_incident; untagged_incident])
    by sample_parses.
  assert (Hdesc : Forall (fun r => resolve_description r <> None)
                    [sample_incident; untagged_incident]).
  { repeat constructor; cbn; discriminate. }
  assert (Hclock : clock_ok (clock sample_world
                               (S (List.length [sample_incident; untagged_incident]
                                   + reads sample_world))))
    by by_evaluation.
  split; [reflexivity|]. split; [exact Hparse|]. split; [exact Hdesc|].
  split; [exact Hclock|].
  destruct (no_note_line_iff_zero_notes
              (sample_env [sample_incident; untagged_incident])
              [sample_incident; untagged_incident] sample_world
              eq_refl Hparse Hdesc Hclock)
    as (fis & gh & gl & stats & total & w1 & Hrun & Hall & _).
  exists fis, w1. split; [exact Hrun|].
  inversion Hall as [|r1 f1 rs1 fs1 Hf1 Hrest1]; subst.
  inversion Hrest1 as [|r2 f2 rs2 fs2 Hf2 Hrest2]; subst.
  inversion Hrest2; subst.
  destruct Hf1 as (_ & _ & _ & _ & _ & Hnoted).
  destruct Hf2 as (_ & _ & _ & _ & Hnone & _).
  cbn [map].
  rewrite (Hnoted [mkNote "x" "hi"] (mkNote "y" "bye") eq_refl).
  rewrite (proj2 Hnone eq_refl). reflexivity.
Defined.

(* ===================================================================== *)
(** ** Further properties of the script *)
(* ===================================================================== *)

Lemma sample_incidents_parse :
  all_parse (sample_env [sample_incident; untagged_incident])
    (clock sample_world) (reads sample_world)
    [sample_incident; untagged_incident].
Proof. sample_parses. Qed.

Lemma sample_formatted_have_description :
  Forall has_description
    [incident_with_notes ["x: #a"]; incident_with_notes []].
Proof. repeat constructor; unfold has_description; cbn; discriminate. Qed.

(** Adding days raises as soon as the result leaves the range. *)
Lemma add_days_out_of_range (d : datetime) (k : Z) :
  ~ (0 < toordinal d + k <= MAXORDINAL) -> add_days d k = None.
Proof.
  intros Hout. unfold add_days.
  destruct (Z.ltb_spec 0 (toordinal d + k)); [|reflexivity].
  destruct (Z.leb_spec (toordinal d + k) MAXORDINAL); [|reflexivity].
  exfalso. apply Hout. lia.
Qed.

(** The jump to the last Wednesday raises when that Wednesday would lie
    before 0001-01-01. *)
Lemma radd_before_first_wednesday (dt : datetime) (k : Z) :
  0 < toordinal dt + k <= MAXORDINAL ->
  toordinal dt + k - (toordinal dt + k + 6 - 2) mod 7 <= 0 ->
  Dateutil.radd dt (Dateutil.mkRelativedelta k Dateutil.WE (-1)) = None.
Proof.
  intros Hin Hout.
  destruct (add_days_in_range dt k Hin) as [ret Hret].
  destruct (toordinal_add_days _ _ _ Hret) as (Hord & _).
  unfold Dateutil.radd.
  cbn [Dateutil.days Dateutil.rd_weekday Dateutil.rd_nth].
  rewrite Hret.
  change (0 <? -1) with false. change (Z.abs (-1) - 1) with 0. cbv iota zeta.
  apply add_days_out_of_range.
  unfold weekday, Dateutil.WE. rewrite Hord.
  rewrite Zminus_mod_idemp_l. lia.
Qed.

(** Only the first three days of year 1 have an ordinal below 4. *)
Lemma toordinal_first_days (d : datetime) :
  valid d ->
  (toordinal d < 4 <-> year d = 1 /\ month d = 1 /\ day d <= 3).
Proof.
  unfold valid, MINYEAR, MAXYEAR, toordinal, ymd2ord.
  intros (Hy & Hm & Hd & _).
  assert (Hdby : year d = 1 /\ days_before_year (year d) = 0
                 \/ 2 <= year d /\ 365 <= days_before_year (year d)).
  { unfold days_before_year. cbv zeta.
    destruct (Z.eq_dec (year d) 1) as [->|Hne]; [left; split; reflexivity|].
    right. split; [lia|]. Z.div_mod_to_equations. lia. }
  assert (Hdbm : month d = 1 /\ days_before_month (year d) (month d) = 0
                 \/ 2 <= month d /\ 31 <= days_before_month (year d) (month d)).
  { unfold days_before_month.
    assert (Hcases : month d = 1 \/ month d = 2 \/ month d = 3 \/ month d = 4 \/
                     month d = 5 \/ month d = 6 \/ month d = 7 \/ month d = 8 \/
                     month d = 9 \/ month d = 10 \/ month d = 11 \/ month d = 12)
      by lia.
    destruct (is_leap (year d));
      repeat (destruct Hcases as [Hc|Hcases];
              [rewrite Hc; cbn; lia|]);
      rewrite Hcases; cbn; lia. }
  lia.
Qed.

(** X1: for a clock reading that is a valid date, [get_oncall_start] returns
    exactly when the date is 0001-01-04 or later; on the first three days of
    year 1 it raises [OverflowError], the clock having been read once. *)
Theorem get_oncall_start_returns_iff (w : World) :
  valid (clock w (reads w)) ->
  ((exists start, get_oncall_start w = (Ok start, tick w))
   <-> 4 <= toordinal (clock w (reads w))) /\
  (toordinal (clock w (reads w)) < 4 ->
   get_oncall_start w = (Raise OverflowError, tick w)) /\
  (toordinal (clock w (reads w)) < 4 <->
   year (clock w (reads w)) = 1 /\ month (clock w (reads w)) = 1 /\
   day (clock w (reads w)) <= 3).
Proof.
  intros Hvalid. set (now := clock w (reads w)) in *.
  pose proof (toordinal_valid now Hvalid) as [Hlo Hhi].
  assert (Hraise : toordinal now < 4 ->
                   get_oncall_start w = (Raise OverflowError, tick w)).
  { intros Hsmall. unfold get_oncall_start, bind, datetime_now.
    fold now. fold (tick w).
    set (today := replace_time now 12 0 0 0).
    assert (Htoday : toordinal today = toordinal now) by reflexivity.
    assert (Hwd : 0 <= (toordinal now + 6) mod 7 < 7)
      by (apply Z.mod_pos_bound; lia).
    unfold weekday. rewrite Htoday.
    destruct (Z.eqb_spec ((toordinal now + 6) mod 7) 2) as [Hwed|Hwed].
    - rewrite (radd_before_first_wednesday today (-1)); [reflexivity| |];
        rewrite Htoday; Z.div_mod_to_equations; lia.
    - rewrite (radd_before_first_wednesday today 0); [reflexivity| |];
        rewrite Htoday; Z.div_mod_to_equations; lia. }
  split; [|split; [exact Hraise | apply toordinal_first_days; exact Hvalid]].
  split.
  - intros [start Hstart].
    destruct (Z.le_gt_cases 4 (toordinal now)) as [Hok|Hsmall]; [exact Hok|].
    rewrite (Hraise Hsmall) in Hstart. discriminate.
  - intros Hok.
    destruct (get_oncall_start_run w Hvalid Hok) as (start & Hstart & _).
    exists start. exact Hstart.
Qed.

Lemma get_oncall_start_returns_iff_witness :
  valid (clock sample_world (reads sample_world)) /\
  exists start, get_oncall_start sample_world = (Ok start, tick sample_world).
Proof.
  assert (Hvalid : valid (clock sample_world (reads sample_world)))
    by by_evaluation.
  split; [exact Hvalid|].
  apply (proj1 (get_oncall_start_returns_iff sample_world Hvalid)).
  by_evaluation.
Defined.

(** X2: the result of [get_oncall_start] depends on the date of the clock
    reading only: two readings on the same day give the same start (or the
    same exception), whatever their time of day. *)
Theorem get_oncall_start_ignores_time_of_day (w1 w2 : World) :
  year (clock w1 (reads w1)) = year (clock w2 (reads w2)) ->
  month (clock w1 (reads w1)) = month (clock w2 (reads w2)) ->
  day (clock w1 (reads w1)) = day (clock w2 (reads w2)) ->
  fst (get_oncall_start w1) = fst (get_oncall_start w2).
Proof.
  intros Hy Hm Hd. unfold get_oncall_start, bind, datetime_now.
  assert (Htoday : replace_time (clock w1 (reads w1)) 12 0 0 0
                   = replace_time (clock w2 (reads w2)) 12 0 0 0).
  { unfold replace_time. now rewrite Hy, Hm, Hd. }
  rewrite Htoday.
  destruct (weekday _ =? 2); destruct (Dateutil.radd _ _); reflexivity.
Qed.

Lemma get_oncall_start_ignores_time_of_day_witness :
  year (clock sample_world (reads sample_world))
  = year (clock evening_world (reads evening_world)) /\
  month (clock sample_world (reads sample_world))
  = month (clock evening_world (reads evening_world)) /\
  day (clock sample_world (reads sample_world))
  = day (clock evening_world (reads evening_world)) /\
  fst (get_oncall_start sample_world) = fst (get_oncall_start evening_world).
Proof.
  split; [reflexivity|]. split; [reflexivity|]. split; [reflexivity|].
  apply (get_oncall_start_ignores_time_of_day sample_world evening_world);
    reflexivity.
Defined.

(** The window of a run: its start from [get_oncall_start] and the day
    [k] days later, with what the arithmetic keeps. *)
Lemma oncall_window_run (w : World) (k : Z) :
  clock_ok (clock w (reads w)) ->
  1 <= k <= 8 ->
  exists start e,
    get_oncall_start w = (Ok start, tick w) /\
    add_days start k = Some e /\
    toordinal e = toordinal start + k /\
    weekday start = 2 /\
    hour start = 12 /\ minute start = 0 /\ second start = 0 /\
    microsecond start = 0 /\
    hour e = 12 /\ minute e = 0 /\ second e = 0 /\ microsecond e = 0 /\
    toordinal (clock w (reads w)) - 7 <= toordinal start
      < toordinal (clock w (reads w)) /\
    (toordinal start = toordinal (clock w (reads w)) - 7
     <-> weekday (clock w (reads w)) = 2).
Proof.
  intros (Hvalid & Hlow & Hhigh) Hk.
  destruct (get_oncall_start_run w Hvalid Hlow)
    as (start & Hstart & Hh & Hmi & Hs & Hus & Hord).
  set (now := clock w (reads w)) in *.
  assert (Hwd : 0 <= (toordinal now + 6) mod 7 < 7)
    by (apply Z.mod_pos_bound; lia).
  assert (Hback : toordinal now - 7 <= toordinal start < toordinal now
                  /\ (toordinal start = toordinal now - 7 <-> weekday now = 2)
                  /\ weekday start = 2).
  { unfold weekday in *. rewrite Hord.
    destruct (Z.eqb_spec ((toordinal now + 6) mod 7) 2);
      Z.div_mod_to_equations; lia. }
  destruct Hback as (Hrange & Hwed & Hws).
  destruct (add_days_in_range start k) as [e He].
  { pose proof Hws as Hws'. unfold weekday in Hws'.
    unfold MAXORDINAL in *. Z.div_mod_to_equations. lia. }
  destruct (toordinal_add_days _ _ _ He) as (Hoe & Hhe & Hmie & Hse & Huse).
  exists start, e. repeat split; try assumption; try congruence; try lia;
    apply Hwed.
Qed.

(** X3: for an acceptable clock reading, [recent_incidents_for_services]
    asks the collaborator for the given services' ids with [since] a
    Wednesday 12:00:00 and [until] the Thursday 12:00:00 eight days later,
    and today's date lies strictly between the two dates. *)
Theorem fetch_window_covers_today (env : Collaborators)
    (services : list Service) (w : World) :
  clock_ok (clock w (reads w)) ->
  exists since until,
    recent_incidents_for_services env services w
    = (Ok (incidents_list env (map service_id services) since until), tick w) /\
    weekday since = 2 /\ weekday until = 3 /\
    toordinal until = toordinal since + 8 /\
    (hour since, minute since, second since, microsecond since) = (12, 0, 0, 0) /\
    (hour until, minute until, second until, microsecond until) = (12, 0, 0, 0) /\
    toordinal since < toordinal (clock w (reads w)) < toordinal until.
Proof.
  intros Hclock.
  destruct (oncall_window_run w 8 Hclock ltac:(lia))
    as (since & until & Hstart & He & Hoe & Hws & Hh & Hmi & Hs & Hus
        & Hhe & Hmie & Hse & Huse & Hrange & _).
  exists since, until. split.
  { unfold recent_incidents_for_services.
    rewrite (bind_ok _ _ _ _ _ Hstart). rewrite He. reflexivity. }
  split; [exact Hws|]. split.
  { unfold weekday in *. rewrite Hoe. Z.div_mod_to_equations. lia. }
  split; [exact Hoe|].
  split; [now rewrite Hh, Hmi, Hs, Hus|].
  split; [now rewrite Hhe, Hmie, Hse, Huse|]. lia.
Qed.

Lemma fetch_window_covers_today_witness :
  clock_ok (clock sample_world (reads sample_world)) /\
  exists raws,
    recent_incidents_for_services (sample_env [sample_incident]) [] sample_world
    = (Ok raws, tick sample_world).
Proof.
  assert (Hclock : clock_ok (clock sample_world (reads sample_world)))
    by by_evaluation.
  split; [exact Hclock|].
  destruct (fetch_window_covers_today (sample_env [sample_incident]) []
              sample_world Hclock) as (since & until & Hrun & _).
  eexists. exact Hrun.
Defined.

(** X4: for an acceptable clock reading, [print_stats] prints one text
    headed by the window start and the Wednesday seven days later, both
    shown with 12:00; today is after the start and not after that end, and
    is the end's date exactly on a Wednesday; the fetch made at the same
    reading starts at the same start and ends one day after the end shown. *)
Theorem stats_header_window (high low : list FormattedIncident) (w : World) :
  clock_ok (clock w (reads w)) ->
  exists start e,
    print_stats high low w
    = (Ok tt, printed [stats_lines high low start e] (tick w)) /\
    toordinal e = toordinal start + 7 /\
    weekday start = 2 /\ weekday e = 2 /\
    strftime_md_HM start
    = PyStr.two_digits (month start) ++ "/" ++ PyStr.two_digits (day start)
      ++ " 12:00" /\
    strftime_md_HM e
    = PyStr.two_digits (month e) ++ "/" ++ PyStr.two_digits (day e)
      ++ " 12:00" /\
    toordinal start < toordinal (clock w (reads w)) <= toordinal e /\
    (toordinal (clock w (reads w)) = toordinal e
     <-> weekday (clock w (reads w)) = 2) /\
    forall (env : Collaborators) (services : list Service),
    exists until,
      recent_incidents_for_services env services w
      = (Ok (incidents_list env (map service_id services) start until), tick w) /\
      toordinal until = toordinal e + 1.
Proof.
  intros Hclock.
  destruct (oncall_window_run w 7 Hclock ltac:(lia))
    as (start & e & Hstart & He & Hoe & Hws & Hh & Hmi & Hs & Hus
        & Hhe & Hmie & Hse & Huse & Hrange & Hwed).
  exists start, e.
  split; [apply print_stats_run; assumption|].
  split; [exact Hoe|]. split; [exact Hws|]. split.
  { unfold weekday in *. rewrite Hoe. Z.div_mod_to_equations. lia. }
  split; [unfold strftime_md_HM; rewrite Hh, Hmi; reflexivity|].
  split; [unfold strftime_md_HM; rewrite Hhe, Hmie; reflexivity|].
  split; [lia|]. split.
  { rewrite <- Hwed. lia. }
  intros env services.
  destruct (oncall_window_run w 8 Hclock ltac:(lia))
    as (start' & until & Hstart' & Hu & Hou & _).
  assert (start' = start) by congruence. subst start'.
  exists until. split; [|lia].
  unfold recent_incidents_for_services.
  rewrite (bind_ok _ _ _ _ _ Hstart). rewrite Hu. reflexivity.
Qed.

Lemma stats_header_window_witness :
  clock_ok (clock sample_world (reads sample_world)) /\
  exists out, print_stats [] [] sample_world = (Ok tt, out).
Proof.
  assert (Hclock : clock_ok (clock sample_world (reads sample_world)))
    by by_evaluation.
  split; [exact Hclock|].
  destruct (stats_header_window [] [] sample_world Hclock)
    as (start & e & Hrun & _).
  eexists. exact Hrun.
Defined.

Lemma contains_app_l (sub a b : string) :
  PyStr.contains sub a = true -> PyStr.contains sub (a ++ b) = true.
Proof.
  rewrite !contains_iff. intros (pre & post & ->).
  exists pre, (post ++ b). now rewrite !append_assoc.
Qed.

Lemma contains_app_r (sub a b : string) :
  PyStr.contains sub b = true -> PyStr.contains sub (a ++ b) = true.
Proof.
  rewrite !contains_iff. intros (pre & post & ->).
  exists (a ++ pre), post. now rewrite !append_assoc.
Qed.

(** The normaliser stops at the first timestamp that does not parse; the
    warning of that incident, when it has no description, is already
    logged and the clock has been read for it. *)
Lemma get_formatted_incidents_loop_error (env : Collaborators)
    (pre post : list Incident) (r : Incident) :
  forall acc w,
    all_parse env (clock w) (reads w) pre ->
    parse_local env
      (replace_time (clock w (List.length pre + reads w)) 0 0 0 0)
      (created_at r) = None ->
    for_fold (pre ++ r :: post) acc
      (fun formatted_incidents incident =>
         formatted_incident <- format_incident env incident ;;
         ret (formatted_incidents ++ [formatted_incident])%list) w
    = (Raise ParserError,
       logged (flat_map warning_of (pre ++ [r]))
         (ticks (S (List.length pre)) w)).
Proof.
  induction pre as [|r0 pre IH]; intros acc w Hpre Hr.
  - cbn [app for_fold flat_map List.length]. rewrite app_nil_r.
    apply bind_raise. apply bind_raise.
    apply (format_incident_parse_error env r w Hr).
  - destruct Hpre as [Hr0 Hpre]. unfold parses_at in Hr0.
    destruct (parse_local env (replace_time (clock w (reads w)) 0 0 0 0)
                (created_at r0)) as [d|] eqn:Hparse; [|congruence].
    cbn [app for_fold flat_map List.length].
    erewrite bind_ok.
    2:{ rewrite (bind_ok _ _ _ _ _ (format_incident_ok env r0 d w Hparse)).
        reflexivity. }
    rewrite IH; [|exact Hpre|].
    + rewrite logged_ticks, logged_logged, ticks_tick. reflexivity.
    + cbn [clock reads logged tick]. rewrite Nat.add_succ_r. exact Hr.
Qed.

(** X7: [get_formatted_incidents] stops at the first incident whose
    timestamp does not parse: it raises, returns no partial list, and has
    logged the warnings of the incidents up to and including that one (the
    description is resolved before the timestamp is parsed); the clock has
    been read once for each of these incidents. *)
Theorem get_formatted_incidents_parse_error (env : Collaborators)
    (pre post : list Incident) (r : Incident) (w : World) :
  all_parse env (clock w) (reads w) pre ->
  parse_local env
    (replace_time (clock w (List.length pre + reads w)) 0 0 0 0)
    (created_at r) = None ->
  get_formatted_incidents env (pre ++ r :: post) w
  = (Raise ParserError,
     logged (flat_map warning_of (pre ++ [r])) (ticks (S (List.length pre)) w)).
Proof.
  intros Hpre Hr. apply get_formatted_incidents_loop_error; assumption.
Qed.

Lemma get_formatted_incidents_parse_error_witness :
  all_parse (unparsable_env [sample_incident]) (clock sample_world)
    (reads sample_world) [] /\
  parse_local (unparsable_env [sample_incident])
    (replace_time (clock sample_world (List.length (@nil Incident)
                                       + reads sample_world)) 0 0 0 0)
    (created_at sample_incident)
  = None /\
  fst (get_formatted_incidents (unparsable_env [sample_incident])
         ([] ++ sample_incident :: []) sample_world)
  = Raise ParserError.
Proof.
  split; [exact I|]. split; [reflexivity|].
  rewrite (get_formatted_incidents_parse_error (unparsable_env [sample_incident])
             [] [] sample_incident sample_world I eq_refl).
  reflexivity.
Defined.

(** X6: when every timestamp parses, [get_formatted_incidents] returns one
    formatted incident per raw incident, in the same order, with the service
    summary, the URL and the urgency copied and the timestamp stored as the
    parser gave it for the clock reading of that incident; it prints
    nothing and reads the clock once per incident. *)
Theorem get_formatted_incidents_shape (env : Collaborators)
    (raws : list Incident) (w : World) :
  all_parse env (clock w) (reads w) raws ->
  exists fis w',
    get_formatted_incidents env raws w = (Ok fis, w') /\
    List.length fis = List.length raws /\
    map service fis = map (fun r => service_summary (incident_service r)) raws /\
    map url fis = map html_url raws /\
    map urgency fis = map incident_urgency raws /\
    map (fun f => Some (created_on f)) fis
    = map (fun kr =>
             parse_local env (replace_time (clock w (fst kr)) 0 0 0 0)
               (created_at (snd kr)))
        (combine (seq (reads w) (List.length raws)) raws) /\
    stdout w' = stdout w /\ clock w' = clock w /\
    reads w' = (List.length raws + reads w)%nat.
Proof.
  intros Hparse.
  destruct (get_formatted_incidents_loop env raws [] w Hparse)
    as (fis & Hrun & Hall & Hcreated).
  exists fis. eexists.
  split; [exact Hrun|].
  split; [symmetry; eapply Forall2_length; exact Hall|].
  assert (Hmaps : forall (A : Type) (g : FormattedIncident -> A) (h : Incident -> A),
             (forall r f, normalized env r f -> g f = h r) ->
             map g fis = map h raws).
  { intros A g h Hgh. clear Hrun Hparse Hcreated.
    induction Hall as [|r f raws fis Hrf _ IH]; [reflexivity|].
    cbn [map]. now rewrite (Hgh r f Hrf), IH. }
  split; [apply Hmaps; intros r f Hn; destruct Hn as (Hs & _); exact Hs|].
  split; [apply Hmaps; intros r f Hn; destruct Hn as (_ & Hu & _); exact Hu|].
  split; [apply Hmaps; intros r f Hn; destruct Hn as (_ & _ & Hg & _); exact Hg|].
  split; [exact Hcreated|].
  repeat split; reflexivity.
Qed.

Lemma get_formatted_incidents_shape_witness :
  all_parse (sample_env [sample_incident; untagged_incident])
    (clock sample_world) (reads sample_world)
    [sample_incident; untagged_incident] /\
  exists fis w',
    get_formatted_incidents (sample_env [sample_incident; untagged_incident])
      [sample_incident; untagged_incident] sample_world = (Ok fis, w') /\
    List.length fis = 2%nat.
Proof.
  split; [exact sample_incidents_parse|].
  destruct (get_formatted_incidents_shape
              (sample_env [sample_incident; untagged_incident])
              [sample_incident; untagged_incident] sample_world
              sample_incidents_parse)
    as (fis & w' & Hrun & Hlen & _).
  exists fis, w'. split; assumption.
Defined.

(** X8: when every timestamp parses, the description of a formatted incident
    is the title when there is one, else the summary when there is one, else
    the identifier (none when that is missing too), and the logger receives
    one warning, naming the incident, for each incident with none of the
    three, in order, and nothing else. *)
Theorem description_resolution_order (env : Collaborators)
    (raws : list Incident) (w : World) :
  all_parse env (clock w) (reads w) raws ->
  exists fis w',
    get_formatted_incidents env raws w = (Ok fis, w') /\
    Forall2
      (fun r f =>
         (forall t, title r = Some t -> description f = Some t) /\
         (forall s, title r = None -> summary r = Some s ->
                    description f = Some s) /\
         (title r = None -> summary r = None -> description f = id_ r))
      raws fis /\
    log w'
    = (log w
       ++ map (fun r => ("action=get_description status=not_found incident="
                         ++ incident_str r)%string)
            (filter
               (fun r =>
                  match title r, summary r, id_ r with
                  | None, None, None => true
                  | _, _, _ => false
                  end) raws))%list.
Proof.
  intros Hparse.
  destruct (get_formatted_incidents_ok env raws w Hparse) as (fis & Hrun & Hall).
  exists fis. eexists.
  split; [exact Hrun|]. split.
  - eapply Forall2_impl; [|exact Hall].
    intros r f (_ & _ & _ & Hd & _). rewrite Hd. unfold resolve_description.
    repeat split.
    + intros t ->. reflexivity.
    + intros s -> ->. reflexivity.
    + intros -> ->. reflexivity.
  - cbn [log logged]. f_equal. clear.
    induction raws as [|r raws IH]; [reflexivity|].
    cbn [flat_map filter]. rewrite IH. unfold warning_of, resolve_description.
    destruct (title r); [reflexivity|]. destruct (summary r); [reflexivity|].
    destruct (id_ r); reflexivity.
Qed.

Lemma description_resolution_order_witness :
  all_parse (sample_env [sample_incident; untagged_incident])
    (clock sample_world) (reads sample_world)
    [sample_incident; untagged_incident] /\
  exists fis w',
    get_formatted_incidents (sample_env [sample_incident; untagged_incident])
      [sample_incident; untagged_incident] sample_world = (Ok fis, w') /\
    log w' = [].
Proof.
  split; [exact sample_incidents_parse|].
  destruct (description_resolution_order
              (sample_env [sample_incident; untagged_incident])
              [sample_incident; untagged_incident] sample_world
              sample_incidents_parse)
    as (fis & w' & Hrun & _ & Hlog).
  exists fis, w'. split; [exact Hrun | exact Hlog].
Defined.

(** X9: after normalisation a tag is found on an incident exactly when it
    occurs in the text author, colon, blank, content of one of its notes; in
    particular a tag in the author's name alone tags the incident, as does a
    tag in the content. *)
Theorem tag_in_author_or_content (env : Collaborators)
    (raws : list Incident) (w : World) (tag : string) :
  all_parse env (clock w) (reads w) raws ->
  exists fis w',
    get_formatted_incidents env raws w = (Ok fis, w') /\
    Forall2
      (fun r f =>
         (has_tag tag f = true <->
          exists n, In n (incident_notes r) /\
                    PyStr.contains tag (user_summary n ++ ": " ++ content n)
                    = true) /\
         (forall n, In n (incident_notes r) ->
                    PyStr.contains tag (user_summary n) = true \/
                    PyStr.contains tag (content n) = true ->
                    has_tag tag f = true))
      raws fis.
Proof.
  intros Hparse.
  destruct (get_formatted_incidents_ok env raws w Hparse) as (fis & Hrun & Hall).
  exists fis. eexists.
  split; [exact Hrun|].
  eapply Forall2_impl; [|exact Hall].
  intros r f (_ & _ & _ & _ & _ & Hnotes & _).
  assert (Hiff : has_tag tag f = true <->
                 exists n, In n (incident_notes r) /\
                           PyStr.contains tag (user_summary n ++ ": " ++ content n)
                           = true).
  { unfold has_tag. rewrite Hnotes, existsb_exists. split.
    - intros (x & Hin & Hc). apply in_map_iff in Hin as (n & <- & Hn).
      exists n. split; assumption.
    - intros (n & Hn & Hc). exists (format_note n). split; [|exact Hc].
      now apply in_map. }
  split; [exact Hiff|].
  intros n Hn [Hauthor|Hcontent]; apply Hiff; exists n; split; try exact Hn.
  - now apply contains_app_l.
  - apply contains_app_r. now apply contains_app_r.
Qed.

Lemma tag_in_author_or_content_witness :
  all_parse (sample_env [sample_incident; untagged_incident])
    (clock sample_world) (reads sample_world)
    [sample_incident; untagged_incident] /\
  exists fis w',
    get_formatted_incidents (sample_env [sample_incident; untagged_incident])
      [sample_incident; untagged_incident] sample_world = (Ok fis, w').
Proof.
  split; [exact sample_incidents_parse|].
  destruct (tag_in_author_or_content
              (sample_env [sample_incident; untagged_incident])
              [sample_incident; untagged_incident] sample_world "#a"
              sample_incidents_parse)
    as (fis & w' & Hrun & _).
  exists fis, w'. exact Hrun.
Defined.

Lemma count_disposition_app (d : Disposition) (l1 l2 : list FormattedIncident) :
  count_disposition d (l1 ++ l2)
  = count_disposition d l1 + count_disposition d l2.
Proof.
  unfold count_disposition. rewrite filter_app, length_app. lia.
Qed.

Lemma count_disposition_Permutation (d : Disposition)
    (l1 l2 : list FormattedIncident) :
  Permutation l1 l2 -> count_disposition d l1 = count_disposition d l2.
Proof.
  unfold count_disposition.
  induction 1 as [|x l l' _ IH|x y l|l l' l'' _ IH1 _ IH2]; cbn [filter].
  - reflexivity.
  - destruct (Disposition_eqb (disposition x) d); cbn [List.length]; lia.
  - destruct (Disposition_eqb (disposition x) d);
      destruct (Disposition_eqb (disposition y) d); reflexivity.
  - lia.
Qed.

Lemma count_disposition_partition (d : Disposition)
    (f : FormattedIncident -> bool) (l : list FormattedIncident) :
  count_disposition d l
  = count_disposition d (filter f l)
    + count_disposition d (filter (fun i => negb (f i)) l).
Proof.
  unfold count_disposition. induction l as [|x l IH]; [reflexivity|].
  cbn [filter]. destruct (f x); cbn [negb filter];
    destruct (Disposition_eqb (disposition x) d); cbn [List.length]; lia.
Qed.

(** X10: [get_breakdown] of a concatenation is the sum, counter by counter,
    of the breakdowns of the parts, and the breakdown of all incidents is
    the sum of the breakdowns of the high-urgency and the low-urgency
    incidents: the two columns of the table add up to the breakdown of the
    whole. *)
Theorem get_breakdown_columns_add_up (l1 l2 all : list FormattedIncident) :
  get_breakdown (l1 ++ l2) = quad_add (get_breakdown l1) (get_breakdown l2) /\
  get_breakdown all
  = quad_add (get_breakdown (filter is_high_urgency all))
      (get_breakdown (filter (fun i => negb (is_high_urgency i)) all)).
Proof.
  rewrite !get_breakdown_counts. unfold quad_add. split.
  - rewrite !count_disposition_app. reflexivity.
  - apply quadruple_eq; apply count_disposition_partition.
Qed.

(** X11: [get_breakdown] does not depend on the order of the incidents. *)
Theorem get_breakdown_permutation (l1 l2 : list FormattedIncident) :
  Permutation l1 l2 -> get_breakdown l1 = get_breakdown l2.
Proof.
  intros Hperm. rewrite !get_breakdown_counts.
  apply quadruple_eq; now apply count_disposition_Permutation.
Qed.

Lemma get_breakdown_permutation_witness :
  Permutation [incident_with_notes ["x: #a"]; incident_with_notes []]
    [incident_with_notes []; incident_with_notes ["x: #a"]] /\
  get_breakdown [incident_with_notes ["x: #a"]; incident_with_notes []]
  = get_breakdown [incident_with_notes []; incident_with_notes ["x: #a"]].
Proof.
  split; [apply perm_swap|].
  apply get_breakdown_permutation, perm_swap.
Defined.

(** X12: adding notes to an incident never removes a tag: an incident
    counted as actionable stays actionable whatever notes are added (a later
    [#na] or [#t] does not override [#a]), and an incident that is not
    tagged with the added notes was not tagged without them. *)
Theorem later_notes_keep_tag (i j : FormattedIncident) (more : list string) :
  notes j = (notes i ++ more)%list ->
  (forall tag, has_tag tag i = true -> has_tag tag j = true) /\
  (get_breakdown [i] = (1, 0, 0, 0) -> get_breakdown [j] = (1, 0, 0, 0)) /\
  (get_breakdown [j] = (0, 0, 0, 1) -> get_breakdown [i] = (0, 0, 0, 1)).
Proof.
  intros Hnotes.
  assert (Hmono : forall tag, has_tag tag i = true -> has_tag tag j = true).
  { intros tag. unfold has_tag. rewrite Hnotes, existsb_app.
    intros ->. reflexivity. }
  assert (Hone : forall k, get_breakdown [k]
                 = if has_tag "#a" k then (1, 0, 0, 0)
                   else if has_tag "#na" k then (0, 1, 0, 0)
                   else if has_tag "#t" k then (0, 0, 1, 0)
                   else (0, 0, 0, 1)).
  { intros k. change (get_breakdown [k]) with (breakdown_step (0, 0, 0, 0) k).
    rewrite breakdown_step_disposition. unfold disposition.
    destruct (has_tag "#a" k); [|destruct (has_tag "#na" k);
      [|destruct (has_tag "#t" k)]]; reflexivity. }
  split; [exact Hmono|]. rewrite !Hone.
  pose proof (Hmono "#a") as Ha. pose proof (Hmono "#na") as Hna.
  pose proof (Hmono "#t") as Ht.
  destruct (has_tag "#a" i); destruct (has_tag "#na" i);
    destruct (has_tag "#t" i);
    repeat match goal with
           | H : true = true -> _ |- _ => rewrite (H eq_refl) in *; clear H
           end;
    split; try discriminate; try reflexivity;
    destruct (has_tag "#a" j); destruct (has_tag "#na" j);
    destruct (has_tag "#t" j); try discriminate; try reflexivity.
Qed.

Lemma later_notes_keep_tag_witness :
  notes (incident_with_notes ["x: #a"; "y: #na"])
  = (notes (incident_with_notes ["x: #a"]) ++ ["y: #na"])%list /\
  get_breakdown [incident_with_notes ["x: #a"; "y: #na"]] = (1, 0, 0, 0).
Proof.
  split; [reflexivity|].
  apply (later_notes_keep_tag (incident_with_notes ["x: #a"])
           (incident_with_notes ["x: #a"; "y: #na"]) ["y: #na"] eq_refl).
  reflexivity.
Defined.

Lemma dict_append_nonempty (d : pydict) (k : string) (v : FormattedIncident) :
  (forall k' g, In (k', g) d -> g <> []) ->
  forall k' g, In (k', g) (dict_append d k v) -> g <> [].
Proof.
  induction d as [|[k0 l] d IH]; cbn [dict_append]; intros Hne k' g Hin.
  - destruct Hin as [Heq|[]]. injection Heq as _ <-. discriminate.
  - destruct (k0 =? k)%string.
    + destruct Hin as [Heq|Hin].
      * injection Heq as _ <-. intros Habs.
        now apply app_eq_nil in Habs as [_ ?].
      * apply (Hne k' g). now right.
    + destruct Hin as [Heq|Hin].
      * injection Heq as <- <-. apply (Hne k0 l). now left.
      * apply IH with (k' := k'); [|exact Hin].
        intros k1 g1 H1. apply (Hne k1 g1). now right.
Qed.

Lemma dict_append_key_in (d : pydict) (k k' : string) (v : FormattedIncident) :
  In k' (map fst (dict_append d k v)) <-> In k' (map fst d) \/ k' = k.
Proof.
  rewrite dict_append_keys.
  destruct (in_dec string_dec k (map fst d)) as [Hin|Hnin].
  - split; [now left | intros [H| ->]; assumption].
  - rewrite in_app_iff. cbn [In]. split.
    + intros [H|[H|[]]]; [now left | right; now symmetry].
    + intros [H| ->]; [now left | right; now left].
Qed.

Lemma group_by_loop (key : FormattedIncident -> string)
    (incidents : list FormattedIncident) :
  forall d,
    NoDup (map fst d) ->
    (forall k g, In (k, g) d -> g <> []) ->
    let d' := fold_left (fun d i => dict_append d (key i) i) incidents d in
    NoDup (map fst d') /\
    (forall k, dict_get d' k
               = (dict_get d k
                  ++ filter (fun i => (key i =? k)%string) incidents)%list) /\
    (forall k g, In (k, g) d' -> g <> []) /\
    (forall k, In k (map fst d')
               <-> In k (map fst d) \/ In k (map key incidents)) /\
    Permutation (List.concat (map snd d')) (List.concat (map snd d) ++ incidents).
Proof.
  induction incidents as [|i incidents IH]; intros d Hnd Hne;
    cbn [fold_left filter map].
  - repeat split; try assumption.
    + intros k. now rewrite app_nil_r.
    + intros H. now left.
    + intros [H|[]]. exact H.
    + now rewrite app_nil_r.
  - destruct (IH (dict_append d (key i) i)
                (dict_append_NoDup d (key i) i Hnd)
                (dict_append_nonempty d (key i) i Hne))
      as (Hnd' & Hget & Hnonempty & Hkeys & Hperm).
    split; [exact Hnd'|]. split; [|split; [exact Hnonempty|split]].
    + intros k. rewrite Hget, dict_get_append.
      destruct (key i =? k)%string; [|reflexivity].
      now rewrite <- app_assoc.
    + intros k. rewrite Hkeys, dict_append_key_in. cbn [In].
      split; [intros [[H|H]|H] | intros [H|[H|H]]]; auto.
    + rewrite Hperm, dict_append_Permutation, <- app_assoc. reflexivity.
Qed.

Lemma group_by_spec (key : FormattedIncident -> string)
    (incidents : list FormattedIncident) :
  NoDup (map fst (group_by key incidents)) /\
  (forall k g, In (k, g) (group_by key incidents) ->
               g = filter (fun i => (key i =? k)%string) incidents /\ g <> []) /\
  (forall k, In k (map fst (group_by key incidents))
             <-> In k (map key incidents)) /\
  Permutation (List.concat (map snd (group_by key incidents))) incidents.
Proof.
  destruct (group_by_loop key incidents [] (NoDup_nil _)
              (fun k g H => match H with end))
    as (Hnd & Hget & Hne & Hkeys & Hperm).
  fold (group_by key incidents) in *.
  split; [exact Hnd|]. split; [|split; [|exact Hperm]].
  - intros k g Hin. split; [|now apply (Hne k)].
    rewrite <- (dict_get_entry _ _ _ Hnd Hin). apply Hget.
  - intros k. rewrite Hkeys. cbn [map In]. tauto.
Qed.

Lemma group_by_count (key : FormattedIncident -> string)
    (incidents : list FormattedIncident) :
  List.length (group_by key incidents)
  = List.length (nodup string_dec (map key incidents)).
Proof.
  destruct (group_by_spec key incidents) as (Hnd & _ & Hkeys & _).
  rewrite <- (length_map fst (group_by key incidents)).
  apply Permutation_length, NoDup_Permutation;
    [exact Hnd | apply NoDup_nodup |].
  intros k. rewrite Hkeys, nodup_In. reflexivity.
Qed.

Lemma flat_map_lines_length {A} (head : string * list A -> string)
    (line : A -> string) (d : list (string * list A)) :
  List.length (flat_map (fun g => head g :: map line (snd g)) d)
  = (List.length d + List.length (List.concat (map snd d)))%nat.
Proof.
  induction d as [|g d IH]; [reflexivity|].
  cbn [flat_map map List.concat].
  rewrite !length_app. cbn [List.length]. rewrite length_map, IH. lia.
Qed.

Lemma has_description_dec (i : FormattedIncident) :
  {has_description i} + {~ has_description i}.
Proof.
  unfold has_description. destruct (description i).
  - left. discriminate.
  - right. intros H. now apply H.
Qed.

Lemma Forall_groups (P : FormattedIncident -> Prop)
    (key : FormattedIncident -> string) (incidents : list FormattedIncident) :
  Forall P incidents
  <-> Forall (fun g => Forall P (snd g)) (group_by key incidents).
Proof.
  destruct (group_by_spec key incidents) as (_ & _ & _ & Hperm).
  rewrite <- Forall_map with (f := snd) (P := Forall P), <- Forall_concat.
  split; intros H.
  - eapply Permutation_Forall; [symmetry; exact Hperm | exact H].
  - eapply Permutation_Forall; [exact Hperm | exact H].
Qed.

(** X13: [print_pages_by_description] returns exactly when every incident
    has a description; otherwise it raises [AttributeError] while grouping,
    before anything is printed. *)
Theorem print_pages_by_description_all_or_nothing
    (incidents : list FormattedIncident) (w : World) :
  (fst (print_pages_by_description incidents w) = Ok tt
   <-> Forall has_description incidents) /\
  (fst (print_pages_by_description incidents w) = Ok tt \/
   print_pages_by_description incidents w
   = (Raise (AttributeError "description"), w)).
Proof.
  destruct (Forall_dec has_description has_description_dec incidents)
    as [Hall|Hmissing].
  - rewrite (print_pages_by_description_run incidents w Hall).
    split; [split; [intros _; exact Hall | reflexivity] | now left].
  - rewrite (print_pages_by_description_raises incidents w Hmissing).
    split; [split; [discriminate | contradiction] | now right].
Qed.

(** X14: when every incident has a description, [print_pages_by_description]
    prints one line per incident and one header per distinct description,
    and nothing for an empty list. *)
Theorem print_pages_by_description_line_count
    (incidents : list FormattedIncident) (w : World) :
  Forall has_description incidents ->
  exists lines,
    print_pages_by_description incidents w = (Ok tt, printed lines w) /\
    List.length lines
    = (List.length incidents
       + List.length (nodup string_dec (map desc_key incidents)))%nat /\
    (incidents = [] -> lines = []).
Proof.
  intros Hall. exists (pages_lines incidents).
  split; [apply print_pages_by_description_run, Hall|].
  split; [|intros ->; reflexivity].
  unfold pages_lines.
  change (group_by_description incidents) with (group_by desc_key incidents).
  unfold group_lines.
  rewrite (flat_map_lines_length
             (fun g => group_header (fst g) (Z.of_nat (List.length (snd g))))
             bullet_text).
  destruct (group_by_spec desc_key incidents) as (_ & _ & _ & Hperm).
  rewrite (Permutation_length Hperm), group_by_count. lia.
Qed.

Lemma print_pages_by_description_line_count_witness :
  Forall has_description
    [incident_with_notes ["x: #a"]; incident_with_notes []] /\
  exists lines,
    print_pages_by_description
      [incident_with_notes ["x: #a"]; incident_with_notes []] sample_world
    = (Ok tt, printed lines sample_world) /\
    List.length lines = 3%nat.
Proof.
  split; [exact sample_formatted_have_description|].
  destruct (print_pages_by_description_line_count
              [incident_with_notes ["x: #a"]; incident_with_notes []]
              sample_world sample_formatted_have_description)
    as (lines & Hrun & Hlen & _).
  exists lines. split; [exact Hrun | exact Hlen].
Defined.

Lemma notes_grouping_run (incidents : list FormattedIncident) :
  forall d w,
    for_fold incidents d
      (fun d incident => ret (dict_append d (last_note incident) incident)) w
    = (Ok (fold_left (fun d i => dict_append d (last_note i) i) incidents d), w).
Proof.
  induction incidents as [|i incidents IH]; intros d w; cbn [for_fold fold_left].
  - reflexivity.
  - erewrite bind_ok; [apply IH | reflexivity].
Qed.

Lemma notes_bullet_run (i : FormattedIncident) (w : World) :
  has_description i ->
  (d <- get_description i ;;
   print (String (ascii_of_nat 9) "- " ++ d ++ " (" ++ url i ++ ")")) w
  = (Ok tt, printed [notes_bullet i] w).
Proof.
  unfold has_description, get_description, notes_bullet, desc_key, bind, ret.
  intros Hi. destruct (description i); [reflexivity | congruence].
Qed.

Lemma notes_bullets_run (g : list FormattedIncident) (w : World) :
  Forall has_description g ->
  for_each g
    (fun i =>
       d <- get_description i ;;
       print (String (ascii_of_nat 9) "- " ++ d ++ " (" ++ url i ++ ")")) w
  = (Ok tt, printed (map notes_bullet g) w).
Proof.
  intros Hall. revert w.
  induction Hall as [|i g Hi _ IH]; intros w; cbn [for_each map].
  - now rewrite printed_nil.
  - rewrite (bind_ok _ _ _ _ _ (notes_bullet_run i w Hi)), IH, printed_printed.
    reflexivity.
Qed.

Lemma notes_bullets_raise (g : list FormattedIncident) :
  ~ Forall has_description g ->
  forall w, exists lines,
    for_each g
      (fun i =>
         d <- get_description i ;;
         print (String (ascii_of_nat 9) "- " ++ d ++ " (" ++ url i ++ ")")) w
    = (Raise (AttributeError "description"), printed lines w).
Proof.
  induction g as [|i g IH]; intros Hmissing w.
  - exfalso. apply Hmissing. constructor.
  - cbn [for_each]. destruct (description i) as [s|] eqn:Hdesc.
    + assert (Hi : has_description i) by (unfold has_description; congruence).
      destruct (IH ltac:(intros Hall; apply Hmissing; constructor; assumption)
                  (printed [notes_bullet i] w)) as [lines Hlines].
      exists (notes_bullet i :: lines).
      rewrite (bind_ok _ _ _ _ _ (notes_bullet_run i w Hi)), Hlines,
        printed_printed.
      reflexivity.
    + exists []. rewrite printed_nil. apply bind_raise, bind_raise.
      unfold get_description, raise. now rewrite Hdesc.
Qed.

Lemma notes_groups_run (d : pydict) (w : World) :
  Forall (fun g => Forall has_description (snd g)) d ->
  for_each d
    (fun '(note, incidents) =>
       print (PyStr.nl ++ note ++ " generated "
              ++ PyStr.str_int (Z.of_nat (List.length incidents))
              ++ " incidents:") ;;;
       for_each incidents
         (fun i =>
            d <- get_description i ;;
            print (String (ascii_of_nat 9) "- " ++ d ++ " (" ++ url i ++ ")"))) w
  = (Ok tt, printed (flat_map notes_group_lines d) w).
Proof.
  intros Hall. revert w.
  induction Hall as [|[k g] d Hg _ IH]; intros w; cbn [for_each flat_map].
  - now rewrite printed_nil.
  - cbn [snd] in Hg.
    rewrite (bind_ok _ _ w
               (printed (notes_group_lines (k, g)) w) tt).
    2:{ rewrite (bind_ok _ _ _ _ _ (print_run _ w)).
        rewrite (notes_bullets_run g _ Hg), printed_printed. reflexivity. }
    rewrite IH, !printed_printed. reflexivity.
Qed.

Lemma notes_groups_raise (d : pydict) :
  ~ Forall (fun g => Forall has_description (snd g)) d ->
  forall w, exists lines,
    lines <> [] /\
    for_each d
      (fun '(note, incidents) =>
         print (PyStr.nl ++ note ++ " generated "
                ++ PyStr.str_int (Z.of_nat (List.length incidents))
                ++ " incidents:") ;;;
         for_each incidents
           (fun i =>
              d <- get_description i ;;
              print (String (ascii_of_nat 9) "- " ++ d ++ " (" ++ url i ++ ")"))) w
    = (Raise (AttributeError "description"), printed lines w).
Proof.
  induction d as [|[k g] d IH]; intros Hmissing w.
  - exfalso. apply Hmissing. constructor.
  - cbn [for_each].
    destruct (Forall_dec has_description has_description_dec g) as [Hg|Hg].
    + destruct (IH ltac:(intros Hall; apply Hmissing; constructor; assumption)
                  (printed (notes_group_lines (k, g)) w)) as (lines & _ & Hlines).
      exists (notes_group_lines (k, g) ++ lines)%list. split; [discriminate|].
      rewrite (bind_ok _ _ w
                 (printed (notes_group_lines (k, g)) w) tt).
      2:{ rewrite (bind_ok _ _ _ _ _ (print_run _ w)).
          rewrite (notes_bullets_run g _ Hg), printed_printed. reflexivity. }
      rewrite Hlines, printed_printed. reflexivity.
    + destruct (notes_bullets_raise g Hg
                  (printed [notes_header k (Z.of_nat (List.length g))] w))
        as [lines Hlines].
      exists (notes_header k (Z.of_nat (List.length g)) :: lines).
      split; [discriminate|].
      apply bind_raise. rewrite (bind_ok _ _ _ _ _ (print_run _ w)).
      fold (notes_header k (Z.of_nat (List.length g))).
      rewrite Hlines, printed_printed. reflexivity.
Qed.

(** X15: when every incident has a description, [print_pages_by_notes]
    prints, for each group, a header with the note and the number of bullets
    that follow, then one bullet per incident with its description and URL;
    the keys are distinct, every incident is in the group of its last note,
    each group holds the incidents of its key in input order, and the groups
    are a rearrangement of the input. *)
Theorem print_pages_by_notes_grouping
    (incidents : list FormattedIncident) (w : World) :
  Forall has_description incidents ->
  exists groups : list (string * list FormattedIncident),
    print_pages_by_notes incidents w
    = (Ok tt,
       printed
         (flat_map
            (fun g =>
               (PyStr.nl ++ fst g ++ " generated "
                ++ PyStr.str_int (Z.of_nat (List.length (map notes_bullet (snd g))))
                ++ " incidents:")
               :: map notes_bullet (snd g))
            groups) w) /\
    NoDup (map fst groups) /\
    (forall i, In i incidents ->
               exists g, In (last_note i, g) groups /\ In i g) /\
    (forall k g, In (k, g) groups ->
                 g <> [] /\
                 g = filter (fun i => (last_note i =? k)%string) incidents) /\
    Permutation (List.concat (map snd groups)) incidents.
Proof.
  intros Hall. exists (group_by last_note incidents).
  destruct (group_by_spec last_note incidents) as (Hnd & Hgroups & Hkeys & Hperm).
  split.
  { unfold print_pages_by_notes.
    rewrite (bind_ok _ _ _ _ _ (notes_grouping_run incidents [] w)).
    fold (group_by last_note incidents).
    rewrite notes_groups_run by (now apply Forall_groups).
    f_equal. f_equal. apply flat_map_ext. intros [k g].
    unfold notes_group_lines, notes_header. cbn [fst snd].
    now rewrite length_map. }
  split; [exact Hnd|]. split; [|split; [|exact Hperm]].
  - intros i Hi.
    assert (Hk : In (last_note i) (map fst (group_by last_note incidents))).
    { apply Hkeys. now apply in_map. }
    apply in_map_iff in Hk as ([k g] & Hfst & Hin). cbn [fst] in Hfst. subst k.
    exists g. split; [exact Hin|].
    destruct (Hgroups _ _ Hin) as [-> _].
    apply filter_In. split; [exact Hi | apply String.eqb_refl].
  - intros k g Hg. destruct (Hgroups k g Hg). split; assumption.
Qed.

Lemma print_pages_by_notes_grouping_witness :
  Forall has_description
    [incident_with_notes ["x: #a"]; incident_with_notes []] /\
  exists groups : list (string * list FormattedIncident),
    NoDup (map fst groups) /\
    Permutation (List.concat (map snd groups))
      [incident_with_notes ["x: #a"]; incident_with_notes []].
Proof.
  split; [exact sample_formatted_have_description|].
  destruct (print_pages_by_notes_grouping
              [incident_with_notes ["x: #a"]; incident_with_notes []]
              sample_world sample_formatted_have_description)
    as (groups & _ & Hnd & _ & _ & Hperm).
  exists groups. split; assumption.
Defined.

(** X16: [print_pages_by_notes] returns exactly when every incident has a
    description; otherwise it raises [AttributeError] while printing, after
    at least one line (a header) has already been printed. *)
Theorem print_pages_by_notes_partial_output
    (incidents : list FormattedIncident) (w : World) :
  (fst (print_pages_by_notes incidents w) = Ok tt
   <-> Forall has_description incidents) /\
  (fst (print_pages_by_notes incidents w) = Ok tt \/
   exists lines,
     lines <> [] /\
     print_pages_by_notes incidents w
     = (Raise (AttributeError "description"), printed lines w)).
Proof.
  unfold print_pages_by_notes.
  rewrite (bind_ok _ _ _ _ _ (notes_grouping_run incidents [] w)).
  fold (group_by last_note incidents).
  destruct (Forall_dec has_description has_description_dec incidents)
    as [Hall|Hmissing].
  - rewrite notes_groups_run by (now apply Forall_groups).
    split; [split; [intros _; exact Hall | reflexivity] | now left].
  - destruct (notes_groups_raise (group_by last_note incidents)
                ltac:(intros H; apply Hmissing;
                      now apply (Forall_groups _ last_note)) w)
      as (lines & Hne & Hrun).
    rewrite Hrun.
    split; [split; [discriminate | contradiction] |].
    right. exists lines. split; [exact Hne | reflexivity].
Qed.

(** A list whose timestamps do not all parse splits at the first one
    that does not. *)
Lemma first_parse_failure (env : Collaborators) (clk : nat -> datetime)
    (raws : list Incident) :
  forall k,
    ~ all_parse env clk k raws ->
    exists pre r post,
      raws = (pre ++ r :: post)%list /\
      all_parse env clk k pre /\
      parse_local env (replace_time (clk (List.length pre + k)%nat) 0 0 0 0)
        (created_at r) = None.
Proof.
  induction raws as [|a raws IH]; intros k Hnot.
  - exfalso. apply Hnot. exact I.
  - destruct (parse_local env (replace_time (clk k) 0 0 0 0) (created_at a))
      as [d|] eqn:Ha.
    + destruct (IH (S k)) as (pre & r & post & -> & Hpre & Hr).
      { intros Hall. apply Hnot. split; [|exact Hall].
        unfold parses_at. rewrite Ha. discriminate. }
      exists (a :: pre), r, post. split; [reflexivity|]. split.
      * split; [|exact Hpre]. unfold parses_at. rewrite Ha. discriminate.
      * cbn [List.length]. rewrite Nat.add_succ_r in Hr. exact Hr.
    + exists [], a, raws. split; [reflexivity|]. split; [exact I | exact Ha].
Qed.

Lemma normalized_is_high (env : Collaborators) (r : Incident)
    (f : FormattedIncident) :
  normalized env r f -> is_high_urgency f = incident_is_high r.
Proof.
  intros (Hs & _ & Hu & _). unfold is_high_urgency, incident_is_high.
  now rewrite Hs, Hu.
Qed.

Lemma normalized_filter_has_description (env : Collaborators)
    (p : FormattedIncident -> bool) (q : Incident -> bool)
    (raws : list Incident) (fis : list FormattedIncident) :
  (forall r f, normalized env r f -> p f = q r) ->
  Forall2 (normalized env) raws fis ->
  (Forall has_description (filter p fis)
   <-> forall r, In r raws -> q r = true -> resolve_description r <> None).
Proof.
  intros Hpq. induction 1 as [|r f raws fis Hrf _ IH].
  - cbn. split; [intros _ r [] | constructor].
  - cbn [filter]. rewrite (Hpq r f Hrf).
    assert (Hd : has_description f <-> resolve_description r <> None).
    { destruct Hrf as (_ & _ & _ & Hd & _). unfold has_description.
      now rewrite Hd. }
    destruct (q r) eqn:Hq.
    + rewrite Forall_cons_iff, IH, Hd. split.
      * intros [Hr Hrest] r' [<-|Hin] Hq'; [exact Hr | now apply Hrest].
      * intros Hall. split; [apply Hall; [now left | exact Hq]|].
        intros r' Hin Hq'. apply Hall; [now right | exact Hq'].
    + rewrite IH. split.
      * intros Hrest r' [<-|Hin] Hq'; [congruence | now apply Hrest].
      * intros Hall r' Hin Hq'. apply Hall; [now right | exact Hq'].
Qed.

(** X17: when the fetch returns, every timestamp parses and the clock
    reading of [print_stats] is acceptable, [print_all_incidents] returns
    exactly when every incident of a rendered section (high urgency, and low
    urgency when [include_low] is set) has a title, a summary or an
    identifier; otherwise it raises [AttributeError]. *)
Theorem print_all_incidents_returns_iff (env : Collaborators)
    (include_low : bool) (raws : list Incident) (w : World) :
  recent_incidents_for_services env (services_of env) w = (Ok raws, tick w) ->
  all_parse env (clock w) (S (reads w)) raws ->
  clock_ok (clock w (S (List.length raws + reads w))) ->
  (fst (print_all_incidents env include_low w) = Ok tt
   <-> forall r, In r raws ->
                 incident_is_high r = true \/ include_low = true ->
                 title r <> None \/ summary r <> None \/ id_ r <> None) /\
  (fst (print_all_incidents env include_low w) = Ok tt \/
   fst (print_all_incidents env include_low w)
   = Raise (AttributeError "description")).
Proof.
  intros Hfetch Hparse Hclock.
  destruct (get_formatted_incidents_ok env raws (tick w) Hparse)
    as (all & Hnorm & Hall).
  rewrite ticks_tick in Hnorm.
  set (high := filter is_high_urgency all).
  set (low := filter (fun i => negb (is_high_urgency i)) all).
  set (w2 := logged (flat_map warning_of raws)
               (ticks (S (List.length raws)) w)) in *.
  assert (Hres : forall r, resolve_description r <> None
                           <-> title r <> None \/ summary r <> None
                               \/ id_ r <> None).
  { intros r. unfold resolve_description.
    destruct (title r); [|destruct (summary r); [|destruct (id_ r)]];
      intuition congruence. }
  assert (Hhigh_iff : Forall has_description high
                      <-> forall r, In r raws -> incident_is_high r = true ->
                                    resolve_description r <> None).
  { apply (normalized_filter_has_description env); [|exact Hall].
    apply normalized_is_high. }
  assert (Hlow_iff : Forall has_description low
                     <-> forall r, In r raws -> negb (incident_is_high r) = true ->
                                   resolve_description r <> None).
  { apply (normalized_filter_has_description env); [|exact Hall].
    intros r f Hrf. now rewrite (normalized_is_high env r f Hrf). }
  destruct (stats_window_run (ticks (S (List.length raws)) w) Hclock)
    as (start & e & Hstart & He).
  assert (Hstats : forall lines,
             print_stats high low (printed lines w2)
             = (Ok tt, printed [stats_lines high low start e]
                         (tick (printed lines w2)))).
  { intros lines. apply print_stats_run; [|exact He].
    apply (get_oncall_start_same_reading (ticks (S (List.length raws)) w));
      [reflexivity | exact Hstart]. }
  unfold print_all_incidents. fold (services_of env).
  rewrite (bind_ok _ _ _ _ _ Hfetch), (bind_ok _ _ _ _ _ Hnorm).
  fold high. fold low.
  rewrite (bind_ok _ _ _ _ _ (print_run _ w2)).
  destruct (Forall_dec has_description has_description_dec high) as [Hh|Hh].
  - rewrite (bind_ok _ _ _ _ _ (print_pages_by_description_run high _ Hh)).
    rewrite printed_printed.
    destruct include_low.
    + destruct (Forall_dec has_description has_description_dec low) as [Hl|Hl].
      * erewrite bind_ok.
        2:{ rewrite (bind_ok _ _ _ _ _ (print_run _ _)).
            rewrite (print_pages_by_description_run low _ Hl).
            rewrite !printed_printed. reflexivity. }
        rewrite (bind_ok _ _ _ _ _ (Hstats _)). cbn [fst print].
        split; [|now left]. split; [|reflexivity].
        intros _ r Hr _. apply Hres.
        destruct (incident_is_high r) eqn:Hq.
        -- now apply Hhigh_iff.
        -- apply Hlow_iff; [exact Hl | exact Hr | now rewrite Hq].
      * erewrite bind_raise.
        2:{ rewrite (bind_ok _ _ _ _ _ (print_run _ _)).
            apply (print_pages_by_description_raises low _ Hl). }
        cbn [fst]. split; [|now right]. split; [discriminate|].
        intros Hall'. exfalso. apply Hl, Hlow_iff.
        intros r Hr _. apply Hres, Hall'; [exact Hr | now right].
    + erewrite bind_ok; [|reflexivity].
      rewrite (bind_ok _ _ _ _ _ (Hstats _)). cbn [fst print].
      split; [|now left]. split; [|reflexivity].
      intros _ r Hr [Hq|Hflag]; [|discriminate].
      apply Hres. now apply Hhigh_iff.
  - erewrite bind_raise;
      [|apply (print_pages_by_description_raises high _ Hh)].
    cbn [fst]. split; [|now right]. split; [discriminate|].
    intros Hall'. exfalso. apply Hh, Hhigh_iff.
    intros r Hr Hq. apply Hres, Hall'; [exact Hr | now left].
Qed.

Lemma print_all_incidents_returns_iff_witness :
  recent_incidents_for_services
    (sample_env [sample_incident; low_incident_without_description])
    (services_of (sample_env [sample_incident; low_incident_without_description]))
    sample_world
  = (Ok [sample_incident; low_incident_without_description], tick sample_world) /\
  all_parse (sample_env [sample_incident; low_incident_without_description])
    (clock sample_world) (S (reads sample_world))
    [sample_incident; low_incident_without_description] /\
  clock_ok (clock sample_world
              (S (List.length [sample_incident; low_incident_without_description]
                  + reads sample_world))) /\
  fst (print_all_incidents
         (sample_env [sample_incident; low_incident_without_description])
         false sample_world) = Ok tt /\
  fst (print_all_incidents
         (sample_env [sample_incident; low_incident_without_description])
         true sample_world) <> Ok tt.
Proof.
  assert (Hparse : all_parse
                     (sample_env [sample_incident;
                                  low_incident_without_description])
                     (clock sample_world) (S (reads sample_world))
                     [sample_incident; low_incident_without_description])
    by sample_parses.
  assert (Hclock : clock_ok
                     (clock sample_world
                        (S (List.length
                              [sample_incident; low_incident_without_description]
                            + reads sample_world))))
    by by_evaluation.
  split; [reflexivity|]. split; [exact Hparse|]. split; [exact Hclock|].
  split.
  - destruct (print_all_incidents_returns_iff
                (sample_env [sample_incident; low_incident_without_description])
                false [sample_incident; low_incident_without_description]
                sample_world eq_refl Hparse Hclock) as [Hiff _].
    apply Hiff.
    intros r [<-|[<-|[]]] [Hq|Hq]; try discriminate.
    left. discriminate.
  - destruct (print_all_incidents_returns_iff
                (sample_env [sample_incident; low_incident_without_description])
                true [sample_incident; low_incident_without_description]
                sample_world eq_refl Hparse Hclock) as [Hiff _].
    intros Hok. pose proof (proj1 Hiff Hok) as Hall.
    destruct (Hall low_incident_without_description
                (or_intror (or_introl eq_refl)) (or_intror eq_refl))
      as [H|[H|H]]; now apply H.
Defined.

(** X18: when the fetch returns and some timestamp does not parse,
    [print_all_incidents] raises that error at the first such incident,
    before anything is printed; the clock has been read once by the fetch
    and once by the parser for each incident up to and including that
    one. *)
Theorem print_all_incidents_parse_error (env : Collaborators)
    (include_low : bool) (raws : list Incident) (w : World) :
  recent_incidents_for_services env (services_of env) w = (Ok raws, tick w) ->
  ~ all_parse env (clock w) (S (reads w)) raws ->
  exists pre r post w',
    raws = (pre ++ r :: post)%list /\
    all_parse env (clock w) (S (reads w)) pre /\
    parse_local env
      (replace_time (clock w (S (List.length pre + reads w))) 0 0 0 0)
      (created_at r) = None /\
    print_all_incidents env include_low w = (Raise ParserError, w') /\
    stdout w' = stdout w /\
    reads w' = S (S (List.length pre + reads w)).
Proof.
  intros Hfetch Hbad.
  destruct (first_parse_failure env (clock w) raws (S (reads w)) Hbad)
    as (pre & r & post & -> & Hpre & Hr).
  exists pre, r, post.
  exists (logged (flat_map warning_of (pre ++ [r]))
            (ticks (S (List.length pre)) (tick w))).
  split; [reflexivity|]. split; [exact Hpre|].
  split; [rewrite <- Nat.add_succ_r; exact Hr|].
  split; [|split; [reflexivity|]].
  - unfold print_all_incidents. fold (services_of env).
    rewrite (bind_ok _ _ _ _ _ Hfetch).
    apply bind_raise.
    apply (get_formatted_incidents_loop_error env pre post r [] (tick w));
      assumption.
  - cbn [reads logged ticks tick]. now rewrite Nat.add_succ_r.
Qed.

Lemma print_all_incidents_parse_error_witness :
  recent_incidents_for_services (unparsable_env [sample_incident])
    (services_of (unparsable_env [sample_incident])) sample_world
  = (Ok [sample_incident], tick sample_world) /\
  ~ all_parse (unparsable_env [sample_incident]) (clock sample_world)
      (S (reads sample_world)) [sample_incident] /\
  fst (print_all_incidents (unparsable_env [sample_incident]) false sample_world)
  = Raise ParserError.
Proof.
  assert (Hbad : ~ all_parse (unparsable_env [sample_incident])
                     (clock sample_world) (S (reads sample_world))
                     [sample_incident]).
  { intros [Hp _]. now apply Hp. }
  split; [reflexivity|]. split; [exact Hbad|].
  destruct (print_all_incidents_parse_error (unparsable_env [sample_incident])
              false [sample_incident] sample_world eq_refl Hbad)
    as (pre & r & post & w' & _ & _ & _ & Hrun & _).
  rewrite Hrun. reflexivity.
Defined.

(** X5: in the table [print_stats] prints, the four rows above TOTAL are the
    breakdowns of the two lists and each TOTAL cell is the sum of the four
    cells above it. *)
Theorem print_stats_totals (high low : list FormattedIncident) (w : World) :
  clock_ok (clock w (reads w)) ->
  exists fs fe h_a h_na h_t h_nt l_a l_na l_t l_nt,
    print_stats high low w
    = (Ok tt,
       printed [stats_text fs fe h_a l_a h_na l_na h_t l_t h_nt l_nt
                  (h_a + h_na + h_t + h_nt) (l_a + l_na + l_t + l_nt)]
         (tick w)) /\
    get_breakdown high = (h_a, h_na, h_t, h_nt) /\
    get_breakdown low = (l_a, l_na, l_t, l_nt).
Proof.
  intros Hclock.
  destruct (stats_window_run w Hclock) as (start & e & Hstart & He).
  pose proof (print_stats_run high low w start e Hstart He) as Hrun.
  unfold stats_lines in Hrun.
  pose proof (count_disposition_total high) as Hh.
  pose proof (count_disposition_total low) as Hl.
  rewrite <- Hh, <- Hl in Hrun.
  rewrite (get_breakdown_counts high), (get_breakdown_counts low) in Hrun.
  do 10 eexists. split; [exact Hrun|].
  split; apply get_breakdown_counts.
Qed.

Lemma print_stats_totals_witness :
  clock_ok (clock sample_world (reads sample_world)) /\
  exists out, print_stats [] [] sample_world = (Ok tt, out).
Proof.
  assert (Hclock : clock_ok (clock sample_world (reads sample_world)))
    by by_evaluation.
  split; [exact Hclock|].
  destruct (print_stats_totals [] [] sample_world Hclock)
    as (fs & fe & h_a & h_na & h_t & h_nt & l_a & l_na & l_t & l_nt & Hrun & _).
  eexists. exact Hrun.
Defined.

(** X19: when the fetch returns [raws], every timestamp parses, every fetched
    incident has a title, summary or identifier and the clock reading of
    [print_stats] is acceptable, the report on the incidents formatted from
    [raws] is: the high-urgency header and pages, then the low-urgency
    header and pages exactly when [include_low] is set, then the statistics
    table and the total over both partitions, the last two being the same
    for both values of the flag.  The clock is read once by the fetch, once
    per incident by the parser and once by [print_stats].  The flag is off
    unless given. *)
Theorem print_all_incidents_sections (env : Collaborators)
    (raws : list Incident) (w : World) :
  recent_incidents_for_services env (services_of env) w = (Ok raws, tick w) ->
  all_parse env (clock w) (S (reads w)) raws ->
  Forall (fun r => resolve_description r <> None) raws ->
  clock_ok (clock w (S (List.length raws + reads w))) ->
  exists (all : list FormattedIncident) (start e : datetime),
    get_formatted_incidents env raws (tick w)
    = (Ok all, ticks (S (List.length raws)) w) /\
    get_oncall_start (ticks (S (List.length raws)) w)
    = (Ok start, ticks (S (S (List.length raws))) w) /\
    add_days start 7 = Some e /\
    let high := filter is_high_urgency all in
    let low := filter (fun i => negb (is_high_urgency i)) all in
    (forall include_low : bool,
        let out :=
          (HIGH_HEADER :: pages_lines high
           ++ (if include_low then LOW_HEADER :: pages_lines low else [])
           ++ [stats_lines high low start e; total_line all])%list in
        print_all_incidents env include_low w
        = (Ok tt,
           mkWorld (stdout w ++ out) (log w) (clock w)
             (S (S (List.length raws + reads w)))) /\
        (In LOW_HEADER out <-> include_low = true)) /\
    (forall given, main env given w = print_all_incidents env given w) /\
    List.length all = (List.length high + List.length low)%nat.
Proof.
  intros Hfetch Hparse Hdesc Hclock.
  destruct (print_all_incidents_run env raws w Hfetch Hparse Hdesc Hclock)
    as (all & start & e & Hnorm & _ & _ & Hstart & He & Hrun).
  exists all, start, e.
  split; [exact Hnorm|]. split; [exact Hstart|]. split; [exact He|].
  cbv zeta.
  set (high := filter is_high_urgency all) in *.
  set (low := filter (fun i => negb (is_high_urgency i)) all) in *.
  split; [|split; [intros []; reflexivity | apply filter_partition_length]].
  intros include_low. split; [apply Hrun|].
  assert (Htail : ~ In LOW_HEADER [stats_lines high low start e; total_line all]).
  { intros [Heq|[Heq|[]]].
    - now apply low_header_not_stats in Heq.
    - unfold total_line, LOW_HEADER in Heq. cbn in Heq. discriminate. }
  assert (Hhead : HIGH_HEADER <> LOW_HEADER) by (cbn; discriminate).
  split.
  - intros [Heq|Hin]; [contradiction|].
    apply in_app_or in Hin as [Hin|Hin];
      [now apply low_header_not_in_pages in Hin|].
    apply in_app_or in Hin as [Hin|Hin]; [|contradiction].
    destruct include_low; [reflexivity | destruct Hin].
  - intros ->. right. apply in_or_app. right. now left.
Qed.

Lemma print_all_incidents_sections_witness :
  recent_incidents_for_services
    (sample_env [sample_incident; untagged_incident])
    (services_of (sample_env [sample_incident; untagged_incident]))
    sample_world
  = (Ok [sample_incident; untagged_incident], tick sample_world) /\
  all_parse (sample_env [sample_incident; untagged_incident])
    (clock sample_world) (S (reads sample_world))
    [sample_incident; untagged_incident] /\
  Forall (fun r => resolve_description r <> None)
    [sample_incident; untagged_incident] /\
  clock_ok (clock sample_world
              (S (List.length [sample_incident; untagged_incident]
                  + reads sample_world))) /\
  exists out,
    print_all_incidents (sample_env [sample_incident; untagged_incident]) false
      sample_world
    = (Ok tt, out) /\
    ~ In LOW_HEADER (stdout out).
Proof.
  assert (Hparse : all_parse (sample_env [sample_incident; untagged_incident])
                     (clock sample_world) (S (reads sample_world))
                     [sample_incident; untagged_incident])
    by sample_parses.
  assert (Hdesc : Forall (fun r => resolve_description r <> None)
                    [sample_incident; untagged_incident]).
  { repeat constructor; cbn; discriminate. }
  assert (Hclock : clock_ok (clock sample_world
                               (S (List.length [sample_incident; untagged_incident]
                                   + reads sample_world))))
    by by_evaluation.
  split; [reflexivity|]. split; [exact Hparse|]. split; [exact Hdesc|].
  split; [exact Hclock|].
  destruct (print_all_incidents_sections
              (sample_env [sample_incident; untagged_incident])
              [sample_incident; untagged_incident] sample_world
              eq_refl Hparse Hdesc Hclock)
    as (all & start & e & _ & _ & _ & Hrun & _).
  destruct (Hrun false) as [Heq Hin].
  eexists. split; [exact Heq|].
  cbn [stdout app]. intros Habs. apply Hin in Habs. discriminate.
Defined.
